(** * The endpoint adapters of lib/http/endpoint.js

    A shallow embedding of [finalize], [endpoint], [openRosaEndpoint] and
    [sendError], and the properties of the result-resolution and
    error-translation protocol they implement.

    The JavaScript is duck-typed: every dispatch of the source tests a
    property of a loosely typed value.  The embedding therefore keeps a
    universe of JavaScript values and performs the very same tests, in the
    same order.  Effects (calls on the response object, listeners on the
    request, writes to stderr, calls of host methods) are appended to a
    trace, oldest first, which is the state threaded through a small
    state-and-exception monad.  The two recursions of the source, the
    resolver handed back to a promise and the translator re-entering itself,
    spend fuel; the properties give the fuel that is enough. *)

From Stdlib Require Import List String Ascii Bool Arith ZArith QArith Lia.
Import ListNotations.
Local Open Scope nat_scope.
Local Open Scope bool_scope.
Local Open Scope string_scope.
Local Open Scope list_scope.

(** ** JavaScript values *)

Module Js.

(** Strings are sequences of 8-bit code units (HTTP header values reach Node
    decoded as latin1, so for them this is exact).  Numbers are only ever
    carried around, compared with literals or produced by [length]; they are
    rationals.  A function value is described by what a call of it does:
    - [Then s] is the [then] of a promise whose fate is [s];
    - [Thunk r] takes no argument, has no effect and returns [r];
    - [Method m n] is a host method of [n] formal parameters whose call is
      observable (a stream's [pipe] or [end]): the call is recorded in the
      trace under the name [m] and returns undefined. *)
#[warnings="-register-all"]
Inductive value : Type :=
| VUndefined
| VNull
| VBool (b : bool)
| VNum (q : Q)
| VStr (s : string)
| VArr (items : list value)
| VObj (props : list (string * value))
| VFun (f : func)
with func : Type :=
| Then (s : settlement)
| Thunk (r : value)
| Method (name : string) (arity : nat)
with settlement : Type :=
| Fulfilled (v : value)
| Rejected (e : value)
| Pending.

Definition num (z : Z) : value := VNum (inject_Z z).

(** [props[k]] on an object literal: the first binding wins. *)
Fixpoint lookup (k : string) (props : list (string * value)) : option value :=
  match props with
  | [] => None
  | (k', v) :: rest => if String.eqb k k' then Some v else lookup k rest
  end.

(** [x == null] *)
Definition nullish (v : value) : bool :=
  match v with
  | VUndefined | VNull => true
  | _ => false
  end.

(** [x === true] *)
Definition is_true (v : value) : bool :=
  match v with
  | VBool true => true
  | _ => false
  end.

(** [x === s] for a string literal [s] *)
Definition is_str (s : string) (v : value) : bool :=
  match v with
  | VStr s' => String.eqb s' s
  | _ => false
  end.

(** [typeof x === 'function'] *)
Definition is_function (v : value) : bool :=
  match v with
  | VFun _ => true
  | _ => false
  end.

Definition arity (f : func) : nat :=
  match f with
  | Then _ => 2
  | Thunk _ => 0
  | Method _ n => n
  end.

(** Exceptions: the only one this code can raise by itself is the TypeError
    of a property read on null or undefined, or of a call of something that
    is not a function. *)
Inductive exn : Type := TypeError.

Inductive result (A : Type) : Type :=
| Done (a : A)
| Thrown (e : exn)
| OutOfFuel.
Arguments Done {A} a.
Arguments Thrown {A} e.
Arguments OutOfFuel {A}.

(** [v.k], for the property names the adapters read ([pipe], [end],
    [isExplicitPromise], [point], [then], [isProblem], [code], [body],
    [forOpenRosa], [httpCode], [message], [problemCode], [problemDetails],
    [type], [stack], [length]).  Objects have own properties only: no value
    handled here inherits one of these names from a prototype other than
    through the list given. *)
Definition get (v : value) (k : string) : result value :=
  match v with
  | VUndefined | VNull => Thrown TypeError
  | VObj props =>
      match lookup k props with
      | Some x => Done x
      | None => Done VUndefined
      end
  | VStr s =>
      if String.eqb k "length" then Done (num (Z.of_nat (String.length s)))
      else Done VUndefined
  | VArr l =>
      if String.eqb k "length" then Done (num (Z.of_nat (List.length l)))
      else Done VUndefined
  | VFun f =>
      if String.eqb k "length" then Done (num (Z.of_nat (arity f)))
      else Done VUndefined
  | VBool _ | VNum _ => Done VUndefined
  end.

(** [Object.prototype.hasOwnProperty.call(v, k)]: ToObject fails on null and
    undefined; primitives are boxed and own none of the names asked for. *)
Definition hasOwnProperty (v : value) (k : string) : result bool :=
  match v with
  | VUndefined | VNull => Thrown TypeError
  | VObj props =>
      match lookup k props with
      | Some _ => Done true
      | None => Done false
      end
  | _ => Done false
  end.

End Js.
Import Js.

(** ** Strings: the three library functions the source applies *)

Module Str.

Local Open Scope nat_scope.

Definition code (c : ascii) : nat := nat_of_ascii c.

(** LineTerminator, among 8-bit code units: LF and CR. *)
Definition line_terminator (c : ascii) : bool :=
  (code c =? 10) || (code c =? 13).

(** WhiteSpace or LineTerminator, among 8-bit code units: TAB, LF, VT, FF,
    CR, SP and NBSP. *)
Definition white (c : ascii) : bool :=
  let n := code c in
  ((9 <=? n) && (n <=? 13)) || (n =? 32) || (n =? 160).

Definition upper (c : ascii) : ascii :=
  let n := code c in
  if (97 <=? n) && (n <=? 122) then ascii_of_nat (n - 32) else c.

Definition lower (c : ascii) : ascii :=
  let n := code c in
  if (65 <=? n) && (n <=? 90) then ascii_of_nat (n + 32) else c.

Fixpoint map (f : ascii -> ascii) (s : string) : string :=
  match s with
  | EmptyString => EmptyString
  | String c r => String (f c) (map f r)
  end.

Definition toLowerCase : string -> string := map lower.

Fixpoint forallb (p : ascii -> bool) (s : string) : bool :=
  match s with
  | EmptyString => true
  | String c r => p c && forallb p r
  end.

(** Does [s] start with GMT, ignoring case (the [i] flag)? Returns what
    follows. *)
Definition after_gmt (s : string) : option string :=
  match s with
  | String g (String m (String t r)) =>
      if Ascii.eqb (upper g) "G"%char && Ascii.eqb (upper m) "M"%char
         && Ascii.eqb (upper t) "T"%char
      then Some r else None
  | _ => None
  end.

(** Does [/GMT.*$/i] match at the start of [s]?  It does when [s] starts
    with GMT and what follows has no line terminator: [.] does not match one
    and [$], without the [m] flag, is the end of the input. *)
Definition gmt_match (s : string) : bool :=
  match after_gmt s with
  | Some r => forallb (fun c => negb (line_terminator c)) r
  | None => false
  end.

(** [s.replace(/GMT.*$/i, 'GMT')]: everything from the leftmost match on
    becomes GMT. No match leaves [s] as it is. *)
Fixpoint replace_gmt (s : string) : string :=
  if gmt_match s then "GMT"
  else match s with
       | EmptyString => EmptyString
       | String c r => String c (replace_gmt r)
       end.

(** [s.split('\n')] *)
Fixpoint split_lines (s : string) : list string :=
  match s with
  | EmptyString => [EmptyString]
  | String c r =>
      if (code c =? 10) then EmptyString :: split_lines r
      else match split_lines r with
           | [] => [String c EmptyString]
           | l :: ls => String c l :: ls
           end
  end.

Fixpoint trim_start (s : string) : string :=
  match s with
  | EmptyString => EmptyString
  | String c r => if white c then trim_start r else s
  end.

Fixpoint trim_end (s : string) : string :=
  match s with
  | EmptyString => EmptyString
  | String c r =>
      match trim_end r with
      | EmptyString => if white c then EmptyString else String c EmptyString
      | r' => String c r'
      end
  end.

(** [s.trim()] *)
Definition trim (s : string) : string := trim_end (trim_start s).

End Str.

(** ** The exchange and its trace *)

(** One request and one response exist per exchange.  A parameter that is
    meant to hold one of them holds a reference to it, or undefined when the
    caller passed nothing. *)
Inductive ref : Type := TheRequest | TheResponse.

(** The only closure the source registers as a listener:
    [() => { if (typeof result.end === 'function') result.end(); }] *)
Inductive listener : Type := Release (result : value).

(** Calls on the response object. *)
Inductive resp_op : Type :=
| SetHeader (name val : string)     (* response.setHeader(name, val) *)
| ContentType (t : string)          (* response.type(t) *)
| Status (code : value)             (* response.status(code) *)
| Send (body : value).              (* response.send(body) *)

Inductive event : Type :=
| Resp (op : resp_op)
| Listen (target : ref) (ev : string) (l : listener)   (* target.on(ev, l) *)
| Invoked (m : string)                 (* the host method m ran *)
| Stderr (s : string)                  (* process.stderr.write(s) *)
| Breakpoint                           (* the debugger statement *)
| Unhandled (e : exn)                  (* a rejection no one handles *)
| Continue (k : string) (v : value).   (* the continuation named k got v *)

Definition World : Type := list event.

(** ** The monad of effects *)

Definition M (A : Type) : Type := World -> result A * World.

Definition ret {A} (a : A) : M A := fun w => (Done a, w).

Definition bind {A B} (m : M A) (k : A -> M B) : M B :=
  fun w =>
    match m w with
    | (Done a, w') => k a w'
    | (Thrown e, w') => (Thrown e, w')
    | (OutOfFuel, w') => (OutOfFuel, w')
    end.

Declare Scope monad_scope.
Delimit Scope monad_scope with monad.
Notation "x <- m ;; k" := (bind m (fun x => k))
  (at level 61, m at next level, right associativity) : monad_scope.
Notation "m ;; k" := (bind m (fun _ => k))
  (at level 61, right associativity) : monad_scope.
Local Open Scope monad_scope.

Definition tell (e : event) : M unit := fun w => (Done tt, w ++ [e]).
Definition throw {A} (e : exn) : M A := fun w => (Thrown e, w).
Definition out_of_fuel {A} : M A := fun w => (OutOfFuel, w).

Definition lift {A} (r : result A) : M A := fun w => (r, w).

(** A callback run by a promise: what it throws rejects the promise that
    [then] returned, which nobody observes. *)
Definition swallow (m : M unit) : M unit :=
  fun w =>
    match m w with
    | (Thrown e, w') => (Done tt, w' ++ [Unhandled e])
    | r => r
    end.

(** A continuation that only records that it was called. *)
Definition probe (k : string) (v : value) : M unit := tell (Continue k v).

(** ** Calls of function values *)

(** [callee(...)] with arguments that are not callbacks (none, or the
    response).  A [then] given no callback returns a promise of the same
    fate. *)
Definition invoke (callee : value) : M value :=
  match callee with
  | VFun (Thunk r) => ret r
  | VFun (Method m _) => tell (Invoked m) ;; ret VUndefined
  | VFun (Then s) => ret (VObj [("then", VFun (Then s))])
  | _ => throw TypeError
  end.

(** [callee(onFulfilled, onRejected)].  A settled promise calls back later,
    from the job queue, and exactly one of the two callbacks, once; a promise
    that never settles calls neither.  Every [then] of the adapters is the
    last thing its caller does, so the callback is run here, in place: the
    trace is the same. *)
Definition invoke_then (callee : value) (onFulfilled onRejected : value -> M unit)
  : M unit :=
  match callee with
  | VFun (Then (Fulfilled v)) => swallow (onFulfilled v)
  | VFun (Then (Rejected e)) => swallow (onRejected e)
  | VFun (Then Pending) => ret tt
  | VFun (Thunk _) => ret tt
  | VFun (Method m _) => tell (Invoked m)
  | _ => throw TypeError
  end.

(** ** The response and the request as the adapters use them *)

Definition respond (op : resp_op) : M unit := tell (Resp op).

Definition sets_header (name : string) (e : event) : bool :=
  match e with
  | Resp (SetHeader k _) => String.eqb (Str.toLowerCase k) (Str.toLowerCase name)
  | Resp (ContentType _) => String.eqb (Str.toLowerCase name) "content-type"
  | _ => false
  end.

(** [response.hasHeader(name)]: header names are case-insensitive, and both
    [setHeader] and [type] set one. *)
Definition hasHeader (name : string) : M bool :=
  fun w => (Done (existsb (sets_header name) w), w).

(** The value last given to [setHeader] for [name]. *)
Fixpoint header_of (name : string) (w : World) : option string :=
  match w with
  | [] => None
  | e :: w' =>
      match header_of name w' with
      | Some v => Some v
      | None =>
          match e with
          | Resp (SetHeader k v) =>
              if String.eqb (Str.toLowerCase k) (Str.toLowerCase name)
              then Some v else None
          | _ => None
          end
      end
  end.

(** [target.on(ev, l)] *)
Definition on (target : option ref) (ev : string) (l : listener) : M unit :=
  match target with
  | Some r => tell (Listen r ev l)
  | None => throw TypeError
  end.

Definition run_listener (l : listener) : M unit :=
  match l with
  | Release result =>
      e <- lift (get result "end") ;;
      if is_function e then invoke e ;; ret tt else ret tt
  end.

Definition ref_eqb (a b : ref) : bool :=
  match a, b with
  | TheRequest, TheRequest | TheResponse, TheResponse => true
  | _, _ => false
  end.

(** The listeners registered so far on [r] for [ev], oldest first. *)
Fixpoint listeners (r : ref) (ev : string) (w : World) : list listener :=
  match w with
  | [] => []
  | Listen r' ev' l :: w' =>
      if ref_eqb r r' && String.eqb ev ev' then l :: listeners r ev w'
      else listeners r ev w'
  | _ :: w' => listeners r ev w'
  end.

Fixpoint run_all (ls : list listener) : M unit :=
  match ls with
  | [] => ret tt
  | l :: ls' => run_listener l ;; run_all ls'
  end.

(** [r.emit(ev)]: a listener added with [on] stays registered and runs at
    every emission. *)
Definition emit (r : ref) (ev : string) : M unit :=
  fun w => run_all (listeners r ev w) w.

(** The request emits close [n] times. *)
Fixpoint closes (n : nat) : M unit :=
  match n with
  | O => ret tt
  | S n' => emit TheRequest "close" ;; closes n'
  end.

Record Request : Type := { headers : list (string * string) }.

(** [request.headers[name]] *)
Fixpoint header (name : string) (hs : list (string * string)) : option string :=
  match hs with
  | [] => None
  | (k, v) :: rest => if String.eqb name k then Some v else header name rest
  end.

Definition of_header (h : option string) : value :=
  match h with
  | Some s => VStr s
  | None => VUndefined
  end.

(** A route handler: [(request, response) => result]. *)
Definition handler : Type := Request -> M value.

(** ** Collaborators that live outside lib/http/endpoint.js *)

(** The three factories of lib/util/problem the adapters call:
    [Problem.internal.emptyResponse()], [Problem.user.invalidHeader(data)]
    and [Problem.user.unparseable(data)]. *)
Record ProblemModule : Type := {
  internal_emptyResponse : value;
  user_invalidHeader : value -> value;
  user_unparseable : value -> value
}.

Record Collaborators : Type := {
  Problem : ProblemModule;
  (** lib/util/http: the payload as written on the wire *)
  serialize : value -> value;
  (** lib/outbound/openrosa: [openRosaMessage(code, data)], an object *)
  openRosaMessage : value -> value -> list (string * value);
  (** util.inspect *)
  inspect : value -> string;
  (** ToString of what is neither a string, undefined, null nor a boolean *)
  render : value -> string;
  (** luxon: [DateTime.fromHTTP(text).isValid], [text] a string or null *)
  fromHTTP_isValid : option string -> bool;
  (** luxon: [DateTime.local().toHTTP()], the clock read by this request *)
  local_toHTTP : string
}.

(** Modelled from the spec: Option (lib/util/option) is not under src/.
    [Option.of(x).orElse(d)] is [d] when no value was produced ([x] is null
    or undefined) and [x] otherwise. *)
Definition Option_of_orElse (x d : value) : value :=
  if nullish x then d else x.

(** The two kinds of classified error the adapters create. *)
Inductive kind : Type := UserError | InternalError.

Definition is_integer (q : Q) : bool := Pos.eqb (Qden (Qred q)) 1.

Definition in_family (k : kind) (q : Q) : bool :=
  match k with
  | UserError => Qle_bool (inject_Z 400) q && negb (Qle_bool (inject_Z 500) q)
  | InternalError => Qle_bool (inject_Z 500) q && negb (Qle_bool (inject_Z 600) q)
  end.

(** Modelled from the spec: the classified errors of lib/util/problem, which
    is not under src/.  A classified error is an object with the fields
    httpCode (an integer), message (a string), problemCode (a number) and
    problemDetails, and the marker [isProblem] that classifies it.  It is no
    other variant of a result (no [pipe], no [then], no explicit-promise
    marker) and carries no protocol discriminant of its own.  A user error has
    a status of the 4xx family, an internal error one of the 5xx family. *)
Definition classified (k : kind) (p : value) : bool :=
  match p with
  | VObj props =>
      match lookup "isProblem" props, lookup "httpCode" props,
            lookup "message" props, lookup "problemCode" props with
      | Some (VBool true), Some (VNum c), Some (VStr _), Some (VNum _) =>
          is_integer c && in_family k c
          && match lookup "pipe" props with Some v => nullish v | None => true end
          && match lookup "then" props with Some v => nullish v | None => true end
          && match lookup "isExplicitPromise" props with
             | Some v => negb (is_true v) | None => true end
          && match lookup "forOpenRosa" props with Some _ => false | None => true end
      | _, _, _, _ => false
      end
  | _ => false
  end.

(** Modelled from the spec: what the factories of lib/util/problem return.
    The empty-response error is a fixed internal error; an invalid-header or
    unparseable error is a user error that carries, as its details, the data
    it was made from (the field and received value; the format and raw
    length). *)
Record ProblemContract (P : ProblemModule) : Prop := {
  emptyResponse_internal :
    classified InternalError (internal_emptyResponse P) = true;
  invalidHeader_user : forall d,
    classified UserError (user_invalidHeader P d) = true
    /\ get (user_invalidHeader P d) "problemDetails" = Done d;
  unparseable_user : forall d,
    classified UserError (user_unparseable P d) = true
    /\ get (user_unparseable P d) "problemDetails" = Done d
}.

(** What the dispatches of the adapters see of a classified error. *)
Record Dispatch (k : kind) (p : value) : Prop := {
  d_pipe : exists x, get p "pipe" = Done x /\ nullish x = true;
  d_explicit : exists x, get p "isExplicitPromise" = Done x /\ is_true x = false;
  d_then : exists x, get p "then" = Done x /\ nullish x = true;
  d_problem : get p "isProblem" = Done (VBool true);
  d_own : hasOwnProperty p "forOpenRosa" = Done false;
  d_code : exists c, get p "httpCode" = Done (VNum c) /\ in_family k c = true;
  d_message : exists m, get p "message" = Done (VStr m)
}.

(** ** lib/http/endpoint.js *)

Section Endpoint.

Variable env : Collaborators.

(** The resolver returned by [finalize(success, failure, request, response)].
    One unit of fuel is spent each time a promise hands its value back to the
    resolver. *)
Fixpoint finalizer (fuel : nat) (success failure : value -> M unit)
    (request response : option ref) (maybeResult : value) {struct fuel} : M unit :=
  match fuel with
  | O => out_of_fuel
  | S fuel' =>
      let result :=
        Option_of_orElse maybeResult (internal_emptyResponse (Problem env)) in
      pipe <- lift (get result "pipe") ;;
      if negb (nullish pipe) then
        on request "close" (Release result) ;;
        invoke pipe ;; ret tt
      else
        isExplicitPromise <- lift (get result "isExplicitPromise") ;;
        if is_true isExplicitPromise then
          point <- lift (get result "point") ;;
          promise <- invoke point ;;
          then_ <- lift (get promise "then") ;;
          invoke_then then_ (finalizer fuel' success failure request response) failure
        else
          then_ <- lift (get result "then") ;;
          if negb (nullish then_) then
            invoke_then then_ (finalizer fuel' success failure request response) failure
          else
            isProblem <- lift (get result "isProblem") ;;
            if is_true isProblem then failure result
            else success result
  end.

Definition finalize (fuel : nat) (success failure : value -> M unit)
    (request response : option ref) : value -> M unit :=
  finalizer fuel success failure request response.

(** The [success] closure of [endpoint]. *)
Definition endpoint_success (result : value) : M unit :=
  has <- hasHeader "Content-Type" ;;
  (if negb has then respond (ContentType "json") else ret tt) ;;
  respond (Status (num 200)) ;;
  respond (Send (serialize env result)).

Definition endpoint (fuel : nat) (f : handler) (request : Request)
    (next : value -> M unit) : M unit :=
  let success := endpoint_success in
  result <- f request ;;
  finalize fuel success next (Some TheRequest) (Some TheResponse) result.

(** [((x != null) && (x.isProblem === true)) ? { forOpenRosa: x } : x] *)
Definition forOpenRosa (x : value) : value :=
  if negb (nullish x)
     && match get x "isProblem" with Done p => is_true p | _ => false end
  then VObj [("forOpenRosa", x)]
  else x.

Definition invalidHeader (field : string) (val : option string) : value :=
  user_invalidHeader (Problem env)
    (VObj [("field", VStr field); ("value", of_header val)]).

Definition patchedDate (request : Request) : option string :=
  match header "date" (headers request) with
  | None => None
  | Some d => Some (Str.replace_gmt d)
  end.

(** The [next] closure of [openRosaEndpoint]. *)
Definition openRosa_next (rawNext : value -> M unit) (x : value) : M unit :=
  rawNext (forOpenRosa x).

(** The [success] closure of [openRosaEndpoint]. *)
Definition openRosa_success (result : value) : M unit :=
  code <- lift (get result "code") ;;
  respond (Status code) ;;
  body <- lift (get result "body") ;;
  respond (Send body).

Definition openRosaEndpoint (fuel : nat) (f : handler) (request : Request)
    (rawNext : value -> M unit) : M unit :=
  let next := openRosa_next rawNext in
  respond (SetHeader "Content-Language" "en") ;;
  respond (SetHeader "X-OpenRosa-Version" "1.0") ;;
  respond (SetHeader "X-OpenRosa-Accept-Content-Length"
             (String.append "20" (String.append "000" "000"))) ;;
  respond (SetHeader "Date" (local_toHTTP env)) ;;
  respond (ContentType "text/xml") ;;
  let header_ := headers request in
  if negb (is_str "1.0" (of_header (header "x-openrosa-version" header_))) then
    next (invalidHeader "X-OpenRosa-Version" (header "x-openrosa-version" header_))
  else if negb (fromHTTP_isValid env (patchedDate request)) then
    next (invalidHeader "Date" (header "date" header_))
  else
    let success := openRosa_success in
    result <- f request ;;
    finalize fuel success next None None result.

(** ToString, as a template literal applies it. *)
Definition to_string (v : value) : string :=
  match v with
  | VStr s => s
  | VUndefined => "undefined"
  | VNull => "null"
  | VBool true => "true"
  | VBool false => "false"
  | _ => render env v
  end.

(** [stack.split('\n').map((x) => x.trim())].  Every stack an engine attaches
    is a string; what is neither null nor a string has no [split] here. *)
Definition stack_lines (stack : value) : result value :=
  match stack with
  | VStr s => Done (VArr (List.map (fun l => VStr (Str.trim l)) (Str.split_lines s)))
  | _ => Thrown TypeError
  end.

(** One unit of fuel is spent each time the translator re-enters itself. *)
Fixpoint sendError (fuel : nat) (error : value) {struct fuel} : M unit :=
  match fuel with
  | O => out_of_fuel
  | S fuel' =>
      own <- lift (hasOwnProperty error "forOpenRosa") ;;
      if own then
        problem <- lift (get error "forOpenRosa") ;;
        httpCode <- lift (get problem "httpCode") ;;
        respond (Status httpCode) ;;
        code <- lift (get problem "code") ;;
        message <- lift (get problem "message") ;;
        body <- lift (get (VObj (openRosaMessage env code
                       (VObj [("nature", VStr "error"); ("message", message)])))
                      "body") ;;
        respond (Send body)
      else
        isProblem <- lift (get error "isProblem") ;;
        if is_true isProblem then
          httpCode <- lift (get error "httpCode") ;;
          respond (Status httpCode) ;;
          respond (ContentType "application/json") ;;
          message <- lift (get error "message") ;;
          problemCode <- lift (get error "problemCode") ;;
          problemDetails <- lift (get error "problemDetails") ;;
          respond (Send (VObj [("message", message); ("code", problemCode);
                               ("details", problemDetails)]))
        else
          type <- lift (get error "type") ;;
          if is_str "entity.parse.failed" type then
            body <- lift (get error "body") ;;
            rawLength <- lift (get body "length") ;;
            sendError fuel'
              (user_unparseable (Problem env)
                 (VObj [("format", VStr "json"); ("rawLength", rawLength)]))
          else
            stack <- lift (get error "stack") ;;
            details <-
              (if negb (nullish stack)
               then lines <- lift (stack_lines stack) ;; ret [("stack", lines)]
               else ret []) ;;
            tell Breakpoint ;;
            tell (Stderr (inspect env error)) ;;
            respond (Status (num 500)) ;;
            respond (ContentType "application/json") ;;
            message <- lift (get error "message") ;;
            respond (Send (VObj
              [("message", VStr (String.append "Completely unhandled exception: "
                                   (to_string message)));
               ("details", VObj details)]))
  end.

(** Modelled from the spec: the continuation downstream of the JSON adapter,
    which is not part of lib/http/endpoint.js.  The specification has every
    failure of a handler reach the error translator through the failure
    continuation.  [endpoint] gives its [next] to [finalize] (line 54), which
    calls it with the failure alone (lines 27, 30 and 33), and [sendError]
    writes on the response it is given as its third argument: the
    continuation is one that supplies the exchange,
    [(error) => sendError(error, request, response)], not [sendError]
    itself, which would find no response. *)
Definition downstream (fuel : nat) (error : value) : M unit :=
  sendError fuel error.

(** ** Vocabulary of the properties *)

Definition no_pipe (r : value) : Prop :=
  exists x, get r "pipe" = Done x /\ nullish x = true.

Definition not_explicit (r : value) : Prop :=
  exists x, get r "isExplicitPromise" = Done x /\ is_true x = false.

Definition no_then (r : value) : Prop :=
  exists x, get r "then" = Done x /\ nullish x = true.

(** The terminal action a result leads to. *)
Inductive outcome : Type :=
| Succeeds (v : value)
| Fails (e : value).

Definition continue (success failure : value -> M unit) (o : outcome) : M unit :=
  match o with
  | Succeeds v => success v
  | Fails e => failure e
  end.

(** The results that come to an end without streaming: an absent result, a
    classified error, a plain value, and a promise or an explicit promise
    that is rejected, or fulfilled with a result that itself comes to an
    end. *)
Inductive Resolves : value -> outcome -> Prop :=
| res_absent v :
    nullish v = true ->
    Resolves v (Fails (internal_emptyResponse (Problem env)))
| res_problem r :
    no_pipe r -> not_explicit r -> no_then r ->
    get r "isProblem" = Done (VBool true) ->
    Resolves r (Fails r)
| res_value r x :
    no_pipe r -> not_explicit r -> no_then r ->
    get r "isProblem" = Done x -> is_true x = false ->
    Resolves r (Succeeds r)
| res_promise_fulfilled r v o :
    no_pipe r -> not_explicit r ->
    get r "then" = Done (VFun (Then (Fulfilled v))) ->
    Resolves v o ->
    Resolves r o
| res_promise_rejected r e :
    no_pipe r -> not_explicit r ->
    get r "then" = Done (VFun (Then (Rejected e))) ->
    Resolves r (Fails e)
| res_explicit_fulfilled r p v o :
    no_pipe r ->
    get r "isExplicitPromise" = Done (VBool true) ->
    get r "point" = Done (VFun (Thunk p)) ->
    get p "then" = Done (VFun (Then (Fulfilled v))) ->
    Resolves v o ->
    Resolves r o
| res_explicit_rejected r p e :
    no_pipe r ->
    get r "isExplicitPromise" = Done (VBool true) ->
    get r "point" = Done (VFun (Thunk p)) ->
    get p "then" = Done (VFun (Then (Rejected e))) ->
    Resolves r (Fails e).

(** What a continuation that only records its call leaves in the trace. *)
Definition recorded (o : outcome) : event :=
  match o with
  | Succeeds v => Continue "success" v
  | Fails e => Continue "failure" e
  end.

(** The calls of continuations in a trace, oldest first. *)
Fixpoint continued (w : World) : list (string * value) :=
  match w with
  | [] => []
  | Continue k v :: w' => (k, v) :: continued w'
  | _ :: w' => continued w'
  end.

(** How many times the host method [m] ran. *)
Fixpoint invocations (m : string) (w : World) : nat :=
  match w with
  | [] => 0
  | Invoked m' :: w' =>
      (if String.eqb m m' then 1 else 0) + invocations m w'
  | _ :: w' => invocations m w'
  end.

(** How many bodies were sent. *)
Fixpoint sends (w : World) : nat :=
  match w with
  | [] => 0
  | Resp (Send _) :: w' => S (sends w')
  | _ :: w' => sends w'
  end.

(** What a call of a function value without callbacks adds to the trace. *)
Definition effect_of (f : func) : list event :=
  match f with
  | Method m _ => [Invoked m]
  | _ => []
  end.

(** [v.k] where [v] is known not to be null or undefined. *)
Definition prop (v : value) (k : string) : value :=
  match get v k with
  | Done x => x
  | _ => VUndefined
  end.

(** An unclassified fault, as the translator sees it: a value that is not
    null, owns no protocol discriminant, bears neither the marker of a
    classified error nor that of a body-decoding failure, and whose stack, if
    it has one, is a string. *)
Definition unclassified (e : value) : Prop :=
  hasOwnProperty e "forOpenRosa" = Done false
  /\ is_true (prop e "isProblem") = false
  /\ is_str "entity.parse.failed" (prop e "type") = false
  /\ (nullish (prop e "stack") = true \/ exists s, prop e "stack" = VStr s).

(** The [details] of the body sent for an unclassified fault. *)
Definition fault_details (e : value) : list (string * value) :=
  match prop e "stack" with
  | VStr s =>
      [("stack", VArr (List.map (fun l => VStr (Str.trim l)) (Str.split_lines s)))]
  | _ => []
  end.

(** The four renderings of the translator: the XML envelope of a wrapped
    classified error (lines 87 to 91), the JSON body of a classified error
    (lines 93 to 98), that of a body-decoding failure, which re-enters the
    translator (lines 100 to 102), and that of an unclassified fault (lines
    104 to 113). *)
Inductive branch : Type :=
| Envelope
| Classified
| ParseFailure
| Fault.

(** The branch the tests of lines 86, 92 and 99 lead to, taken in their
    order.  The first test raises on null and undefined; on the other values
    no test raises. *)
Definition selects (error : value) : result branch :=
  match hasOwnProperty error "forOpenRosa" with
  | Done true => Done Envelope
  | Done false =>
      if is_true (prop error "isProblem") then Done Classified
      else if is_str "entity.parse.failed" (prop error "type") then Done ParseFailure
      else Done Fault
  | Thrown x => Thrown x
  | OutOfFuel => OutOfFuel
  end.

(** The five calls on the response at the head of the protocol adapter: the
    four headers the protocol mandates, then the content type. *)
Definition mandated : list event :=
  [Resp (SetHeader "Content-Language" "en");
   Resp (SetHeader "X-OpenRosa-Version" "1.0");
   Resp (SetHeader "X-OpenRosa-Accept-Content-Length" "20000000");
   Resp (SetHeader "Date" (local_toHTTP env));
   Resp (ContentType "text/xml")].

End Endpoint.

(** ** A sample of collaborators, to run the adapters on concrete exchanges *)

Module Sample.

Definition problem (httpCode : Z) (problemCode : Q) (message : string)
    (details : value) : value :=
  VObj [("isProblem", VBool true); ("httpCode", num httpCode);
        ("message", VStr message); ("problemCode", VNum problemCode);
        ("problemDetails", details)].

Definition P : ProblemModule := {|
  internal_emptyResponse := problem 500 (5002 # 10) "no response" VUndefined;
  user_invalidHeader := problem 400 (4002 # 10) "invalid header";
  user_unparseable := problem 400 (4001 # 10) "unparseable"
|}.

Definition env : Collaborators := {|
  Problem := P;
  serialize := fun v => v;
  openRosaMessage := fun code data =>
    [("code", code); ("body", VObj [("OpenRosaResponse", data)])];
  inspect := fun _ => "[inspect]";
  render := fun _ => "[object]";
  fromHTTP_isValid := fun text =>
    match text with
    | Some s => String.eqb s "Tue, 01 Jan 2030 00:00:00 GMT"
    | None => false
    end;
  local_toHTTP := "Mon, 02 Nov 2026 00:00:00 GMT"
|}.

Definition promise (s : settlement) : value := VObj [("then", VFun (Then s))].

Definition explicitPromise (s : settlement) : value :=
  VObj [("isExplicitPromise", VBool true); ("point", VFun (Thunk (promise s)))].

Definition stream : value :=
  VObj [("pipe", VFun (Method "pipe" 2)); ("end", VFun (Method "end" 0))].

Definition collect : Request :=
  {| headers := [("x-openrosa-version", "1.0");
                 ("date", "Tue, 01 Jan 2030 00:00:00 GMT+0500")] |}.

End Sample.

(** ** Computations that come to an end *)

(** A computation that comes to an end, normally or by an exception, from
    every state. *)
Definition ends {A} (m : M A) : Prop :=
  forall w, fst (m w) <> OutOfFuel.

(** ** lib/model/instance/instance.js *)

(** The composition of an Instance class out of traits: [assignAll] and the
    second component of [builder(traitDefs)], which decorates the class once
    the container is known.  What the first component does to a new
    instance, and [with] and [without] of InstanceBase, rest on ramda and on
    the construction of objects, and are not modelled. *)
Module Model.

(** An object, by its own properties.  A property is given by what a read
    of it yields. *)
Definition object : Type := list (string * value).

(** [target[k] = v] where the write goes through: the own property is
    replaced where it stands, or added. *)
Fixpoint assign (k : string) (v : value) (target : object) : object :=
  match target with
  | [] => [(k, v)]
  | (k', v') :: rest =>
      if String.eqb k k' then (k, v) :: rest else (k', v') :: assign k v rest
  end.

(** [Object.getOwnPropertyNames(source)] *)
Definition getOwnPropertyNames (source : object) : list string :=
  List.map fst source.

(** [assignAll(target, source)].  The module is not in strict mode: a write
    that the target refuses (a property that is not writable, or the setter
    [__proto__]) leaves its own properties as they are. *)
Definition assignAll (refuses : string -> bool) (target source : object) : object :=
  fold_left
    (fun target property =>
       match lookup property source with
       | Some x =>
           if is_function x
           then if refuses property then target else assign property x target
           else target
       | None => target
       end)
    (getOwnPropertyNames source) target.

(** An object made by [Object.create] refuses no write but that of
    [__proto__], which is a setter of Object.prototype. *)
Definition refuses_member (k : string) : bool := String.eqb k "__proto__".

(** A function declared with [function] refuses also the writes of its
    [length], [name], [arguments] and [caller]. *)
Definition refuses_static (k : string) : bool :=
  String.eqb k "__proto__" || String.eqb k "length" || String.eqb k "name"
  || String.eqb k "arguments" || String.eqb k "caller".

(** A trait as [traitDef(container)] returns it, a class: the own properties
    of its prototype object ([members]) and those of the class itself other
    than [prototype] ([statics]). *)
Record Trait : Type := {
  statics : object;
  members : object
}.

(** The own properties of a class, as [assignAll(Instance, trait)] reads
    them.  A class owns [prototype], which holds its prototype object: no
    class can declare a static member of that name, and the property cannot
    be written.  It is an object, never a function. *)
Definition class_own (trait : Trait) : object :=
  ("prototype", VObj (members trait)) :: statics trait.

(** A class that defines nothing under the name [__proto__], neither on its
    prototype nor on itself.  The write of a function under that name is not
    the write of an own property: it changes what the target inherits from,
    and with it the writes the target accepts afterwards. *)
Definition plain (trait : Trait) : Prop :=
  lookup "__proto__" (members trait) = None
  /\ lookup "__proto__" (statics trait) = None.

(** What [builder] closes over: the bag of traits, the own properties of the
    object [Instance.prototype] and the own properties of the function
    [Instance] other than [prototype]. *)
Record Class : Type := {
  traits : list Trait;
  prototype : object;
  own : object
}.

Definition fresh : Class := {| traits := []; prototype := []; own := [] |}.

(** The second component of [builder(traitDefs)]; [self] is the function
    [Instance].  [Instance.prototype] is an own property of [Instance] that
    can be written: line 61 would replace it by the [prototype] of a trait
    if that were a function.  The [prototype] of a class is an object, so
    that the object made at line 50 stays in place and the two targets of
    lines 60 and 61 are told apart here.  The traits are taken to be
    [plain]: what a write of [__proto__] does to the later writes is not
    followed. *)
Definition inject {C : Type} (traitDefs : list (C -> Trait)) (self : value)
    (container : C) (st : Class) : Class :=
  let bag := traits st ++ List.map (fun traitDef => traitDef container) traitDefs in
  let decorated :=
    fold_left
      (fun d trait =>
         (assignAll refuses_member (fst d) (members trait),
          assignAll refuses_static (snd d) (class_own trait)))
      bag (prototype st, own st) in
  {| traits := bag;
     prototype := assign "constructor" self (fst decorated);
     own := snd decorated |}.

Definition builder {C : Type} (traitDefs : list (C -> Trait)) (self : value)
  : Class * (C -> Class -> Class) :=
  (fresh, inject traitDefs self).

(** [Instance(def)] *)
Definition Instance {C : Type} (def : C -> Trait) (self : value) :=
  builder [def] self.

(** [Instance.with(...traits)(def)] *)
Definition Instance_with {C : Type} (mixins : list (C -> Trait)) (def : C -> Trait)
    (self : value) :=
  builder (mixins ++ [def]) self.

(** What [assignAll] copies from [source] under [k], if anything. *)
Definition copied (refuses : string -> bool) (source : object) (k : string)
  : option value :=
  match lookup k source with
  | Some x => if is_function x && negb (refuses k) then Some x else None
  | None => None
  end.

(** The function that the last of [sources] to hold one under [k] holds,
    among the keys the target accepts. *)
Fixpoint provided (refuses : string -> bool) (k : string) (sources : list object)
  : option value :=
  match sources with
  | [] => None
  | source :: rest =>
      match provided refuses k rest with
      | Some f => Some f
      | None =>
          match lookup k source with
          | Some x => if is_function x && negb (refuses k) then Some x else None
          | None => None
          end
      end
  end.

(** A sample: a named trait and the definition of a class, which both
    define [greet]. *)
Definition sample_trait : Trait :=
  {| statics := [("find", VFun (Thunk (VStr "trait")))];
     members := [("constructor", VFun (Method "Trait" 0));
                 ("greet", VFun (Thunk (VStr "trait")));
                 ("sign", VFun (Thunk (VStr "trait")))] |}.

Definition sample_def : Trait :=
  {| statics := [];
     members := [("constructor", VFun (Method "Def" 0));
                 ("greet", VFun (Thunk (VStr "def")))] |}.

End Model.

(** * Properties *)

(** ** The string functions on the inputs of the specification *)

Example replace_gmt_collect :
  Str.replace_gmt "Tue, 01 Jan 2030 00:00:00 GMT+0500"
  = "Tue, 01 Jan 2030 00:00:00 GMT".
Proof. reflexivity. Qed.

Example replace_gmt_lowercase :
  Str.replace_gmt "Tue, 01 Jan 2030 00:00:00 gmt+05:00" = "Tue, 01 Jan 2030 00:00:00 GMT".
Proof. reflexivity. Qed.

Example replace_gmt_no_match :
  Str.replace_gmt "yesterday" = "yesterday".
Proof. reflexivity. Qed.

Example split_trim_stack :
  List.map Str.trim
    (Str.split_lines
       (String.append "Error: boom" (String (ascii_of_nat 10) "    at f (a.js:1:1)  ")))
  = ["Error: boom"; "at f (a.js:1:1)"].
Proof. reflexivity. Qed.

(** ** Reading properties *)

Lemma get_nullish (v : value) (k : string) (x : value) :
  get v k = Done x -> nullish v = false.
Proof. destruct v; simpl; intros H; try reflexivity; discriminate H. Qed.

Lemma get_total (v : value) (k : string) :
  nullish v = false -> exists x, get v k = Done x.
Proof.
  destruct v; simpl; intros H; try discriminate H; eauto.
  - destruct (String.eqb k "length"); eauto.
  - destruct (String.eqb k "length"); eauto.
  - destruct (lookup k props); eauto.
  - destruct (String.eqb k "length"); eauto.
Qed.

Lemma hasOwn_nullish (v : value) (k : string) (b : bool) :
  hasOwnProperty v k = Done b -> nullish v = false.
Proof. destruct v; simpl; intros H; try reflexivity; discriminate H. Qed.

Lemma classified_dispatch (k : kind) (p : value) :
  classified k p = true -> Dispatch k p.
Proof.
  destruct p as [| | | | | |props|]; simpl; try discriminate.
  destruct (lookup "isProblem" props) as [[| |[|]| | | | |]|] eqn:Ep; try discriminate.
  destruct (lookup "httpCode" props) as [[]|] eqn:Ec; try discriminate.
  destruct (lookup "message" props) as [[]|] eqn:Em; try discriminate.
  destruct (lookup "problemCode" props) as [[]|] eqn:En; try discriminate.
  intros H.
  repeat (apply andb_prop in H; destruct H as [H ?]).
  constructor; simpl.
  - destruct (lookup "pipe" props); eauto.
  - destruct (lookup "isExplicitPromise" props) as [x|]; eauto.
    exists x. split; [reflexivity|]. now destruct (is_true x).
  - destruct (lookup "then" props); eauto.
  - now rewrite Ep.
  - destruct (lookup "forOpenRosa" props); [discriminate | reflexivity].
  - rewrite Ec. eauto.
  - rewrite Em. eauto.
Qed.

Lemma family_user (c : Q) :
  in_family UserError c = true -> (inject_Z 400 <= c)%Q /\ (c < inject_Z 500)%Q.
Proof.
  simpl. intros H. apply andb_prop in H. destruct H as [H1 H2].
  apply Qle_bool_iff in H1. split; [exact H1|].
  apply Qnot_le_lt. intros H3. apply Qle_bool_iff in H3.
  rewrite H3 in H2. discriminate H2.
Qed.

Lemma family_internal (c : Q) :
  in_family InternalError c = true -> (inject_Z 500 <= c)%Q /\ (c < inject_Z 600)%Q.
Proof.
  simpl. intros H. apply andb_prop in H. destruct H as [H1 H2].
  apply Qle_bool_iff in H1. split; [exact H1|].
  apply Qnot_le_lt. intros H3. apply Qle_bool_iff in H3.
  rewrite H3 in H2. discriminate H2.
Qed.

(** ** The monad *)

Lemma bind_lift {A B} (r : result A) (x : A) (f : A -> M B) (w : World) :
  r = Done x -> bind (lift r) f w = f x w.
Proof. intros ->. reflexivity. Qed.

Lemma bind_get {B} (v : value) (k : string) (x : value) (f : value -> M B) (w : World) :
  get v k = Done x -> bind (lift (get v k)) f w = f x w.
Proof. intros H. unfold bind, lift. now rewrite H. Qed.

Lemma bind_tell {B} (e : event) (f : unit -> M B) (w : World) :
  bind (tell e) f w = f tt (w ++ [e]).
Proof. reflexivity. Qed.

Lemma bind_respond {B} (op : resp_op) (f : unit -> M B) (w : World) :
  bind (respond op) f w = f tt (w ++ [Resp op]).
Proof. reflexivity. Qed.

Lemma swallow_eq (m c : M unit) (w : World) :
  m w = c w \/ m w = swallow c w -> swallow m w = swallow c w.
Proof.
  intros [H|H]; unfold swallow in *; rewrite H; [reflexivity|].
  destruct (c w) as [[[]|e|] w']; reflexivity.
Qed.

Lemma swallow_done (m : M unit) (w w' : World) :
  m w = (Done tt, w') -> swallow m w = (Done tt, w').
Proof. intros H. unfold swallow. now rewrite H. Qed.

(** Runs the property reads and tests at the head of the goal with the facts
    at hand. *)
Ltac reads :=
  repeat first
    [ match goal with
      | H : get ?v ?k = Done _ |- context [bind (lift (get ?v ?k)) _ _] =>
          rewrite (bind_get _ _ _ _ _ H)
      | H : hasOwnProperty ?v ?k = Done _
        |- context [bind (lift (hasOwnProperty ?v ?k)) _ _] =>
          rewrite (bind_lift _ _ _ _ H)
      end
    | match goal with
      | H : nullish ?x = _ |- context [nullish ?x] => rewrite H
      | H : is_true ?x = _ |- context [is_true ?x] => rewrite H
      end
    | progress cbn [negb is_true nullish] ].

(** ** Resolution of a handler's result *)

Section Resolution.

Variable env : Collaborators.

Lemma orElse_present (r d x : value) (k : string) :
  get r k = Done x -> Option_of_orElse r d = r.
Proof. intros H. unfold Option_of_orElse. now rewrite (get_nullish _ _ _ H). Qed.

(** A classified error goes to the failure continuation. *)
Lemma finalizer_classified (k : kind) (p : value) fuel success failure request response w :
  classified k p = true ->
  finalizer env (S fuel) success failure request response p w = failure p w.
Proof.
  intros H. destruct (classified_dispatch _ _ H)
    as [[x1 [P1 N1]] [x2 [P2 N2]] [x3 [P3 N3]] P4 _ _ _].
  cbn [finalizer]. rewrite (orElse_present _ _ _ _ P1). reads. reflexivity.
Qed.

Lemma finalizer_absent (v : value) fuel success failure request response w :
  ProblemContract (Problem env) ->
  nullish v = true ->
  finalizer env (S fuel) success failure request response v w
  = failure (internal_emptyResponse (Problem env)) w.
Proof.
  intros contract H.
  rewrite <- (finalizer_classified InternalError _ fuel success failure request response w
                (emptyResponse_internal _ contract)).
  cbn [finalizer]. unfold Option_of_orElse. rewrite H.
  destruct (classified_dispatch _ _ (emptyResponse_internal _ contract)) as [[x [Px _]] _ _ _ _ _ _].
  now rewrite (get_nullish _ _ _ Px).
Qed.

(** The whole effect of the resolver on a result that comes to an end is one
    call of one continuation, run by a promise when the result was one. *)
Lemma finalizer_resolves (r : value) (o : outcome) :
  Resolves env r o ->
  ProblemContract (Problem env) \/ (exists v, o = Succeeds v) ->
  exists n, forall fuel, n <= fuel ->
    forall success failure request response w,
      finalizer env fuel success failure request response r w
      = continue success failure o w
      \/ finalizer env fuel success failure request response r w
         = swallow (continue success failure o) w.
Proof.
  induction 1 as [v Hv
                 | r [x1 [P1 N1]] [x2 [P2 N2]] [x3 [P3 N3]] P4
                 | r x [x1 [P1 N1]] [x2 [P2 N2]] [x3 [P3 N3]] P4 N4
                 | r v o [x1 [P1 N1]] [x2 [P2 N2]] P3 Hv IH
                 | r e [x1 [P1 N1]] [x2 [P2 N2]] P3
                 | r p v o [x1 [P1 N1]] P2 P3 P4 Hv IH
                 | r p e [x1 [P1 N1]] P2 P3 P4];
    intros Hc.
  - exists 1. intros [|fuel] Hf; [lia|]. intros. left.
    destruct Hc as [contract|[v' Hv']]; [|discriminate Hv'].
    now apply finalizer_absent.
  - exists 1. intros [|fuel] Hf; [lia|]. intros. left.
    cbn [finalizer]. rewrite (orElse_present _ _ _ _ P1). reads. reflexivity.
  - exists 1. intros [|fuel] Hf; [lia|]. intros. left.
    cbn [finalizer]. rewrite (orElse_present _ _ _ _ P1). reads. reflexivity.
  - destruct (IH Hc) as [n IHn]. exists (S n). intros [|fuel] Hf; [lia|]. intros. right.
    cbn [finalizer]. rewrite (orElse_present _ _ _ _ P1). reads. cbn [invoke_then].
    apply swallow_eq. apply IHn. lia.
  - exists 1. intros [|fuel] Hf; [lia|]. intros. right.
    cbn [finalizer]. rewrite (orElse_present _ _ _ _ P1). reads. reflexivity.
  - destruct (IH Hc) as [n IHn]. exists (S n). intros [|fuel] Hf; [lia|]. intros. right.
    cbn [finalizer]. rewrite (orElse_present _ _ _ _ P1). reads.
    cbn [invoke]. unfold bind at 1, ret at 1. reads. cbn [invoke_then].
    apply swallow_eq. apply IHn. lia.
  - exists 1. intros [|fuel] Hf; [lia|]. intros. right.
    cbn [finalizer]. rewrite (orElse_present _ _ _ _ P1). reads.
    cbn [invoke]. unfold bind at 1, ret at 1. reads. reflexivity.
Qed.

(** A streamable result: the listener is registered, then piping begins, and
    that is all. *)
Lemma finalizer_streams (r : value) (f : func) fuel success failure target response w :
  get r "pipe" = Done (VFun f) ->
  finalizer env (S fuel) success failure (Some target) response r w
  = (Done tt, w ++ [Listen target "close" (Release r)] ++ effect_of f).
Proof.
  intros P. cbn [finalizer]. rewrite (orElse_present _ _ _ _ P).
  rewrite (bind_get _ _ _ _ _ P). cbn [nullish negb on].
  rewrite bind_tell. destruct f; cbn; unfold bind, ret, tell; cbn;
    rewrite <- ?app_assoc; reflexivity.
Qed.

Lemma finalizer_streams_detached (r : value) (f : func) fuel success failure response w :
  get r "pipe" = Done (VFun f) ->
  finalizer env (S fuel) success failure None response r w = (Thrown TypeError, w).
Proof.
  intros P. cbn [finalizer]. rewrite (orElse_present _ _ _ _ P).
  rewrite (bind_get _ _ _ _ _ P). reflexivity.
Qed.

Lemma continued_app (w w' : World) :
  continued (w ++ w') = continued w ++ continued w'.
Proof.
  induction w as [|e w IH]; [reflexivity|].
  destruct e; simpl; rewrite IH; reflexivity.
Qed.

Lemma continued_effect (f : func) : continued (effect_of f) = [].
Proof. destruct f; reflexivity. Qed.

Lemma finalizer_streams_silent (r : value) (f : func) fuel success failure request response w :
  get r "pipe" = Done (VFun f) ->
  continued (snd (finalizer env fuel success failure request response r w)) = continued w.
Proof.
  intros P. destruct fuel as [|fuel]; [reflexivity|].
  destruct request as [t|].
  - rewrite (finalizer_streams _ _ _ _ _ _ _ _ P). cbn [snd].
    rewrite !continued_app, continued_effect. cbn. now rewrite app_nil_r.
  - now rewrite (finalizer_streams_detached _ _ _ _ _ _ _ P).
Qed.

Lemma finalizer_pending (r : value) fuel success failure request response w :
  no_pipe r -> not_explicit r -> get r "then" = Done (VFun (Then Pending)) ->
  finalizer env (S fuel) success failure request response r w = (Done tt, w).
Proof.
  intros [x1 [P1 N1]] [x2 [P2 N2]] P3.
  cbn [finalizer]. rewrite (orElse_present _ _ _ _ P1).
  rewrite (bind_get _ _ _ _ _ P1), N1. cbn [negb].
  rewrite (bind_get _ _ _ _ _ P2), N2.
  rewrite (bind_get _ _ _ _ _ P3). reflexivity.
Qed.

Lemma continue_probes (o : outcome) (w : World) :
  continue (probe "success") (probe "failure") o w = (Done tt, w ++ [recorded o]).
Proof. destruct o; reflexivity. Qed.

End Resolution.

Lemma sample_contract : ProblemContract Sample.P.
Proof. constructor; [reflexivity | intros d; split; reflexivity ..]. Qed.

(** C1 (as amended). For every result that is absent, a classified error, a
    plain value, or a promise or explicit promise that is rejected or is
    fulfilled with such a result, the resolver calls exactly one of the
    success and failure continuations, exactly once: all it adds to the
    trace is the record of that one call.  For a streamable result it calls
    neither, and neither for a promise that never settles. *)
Theorem finalize_one_terminal_action (env : Collaborators) :
  ProblemContract (Problem env) ->
  (forall r o, Resolves env r o ->
     exists n, forall fuel, n <= fuel ->
       forall request response w,
         finalize env fuel (probe "success") (probe "failure") request response r w
         = (Done tt, w ++ [recorded o]))
  /\ (forall r f, get r "pipe" = Done (VFun f) ->
        forall fuel request response w,
          continued (snd (finalize env fuel (probe "success") (probe "failure")
                            request response r w))
          = continued w)
  /\ (forall r, no_pipe r -> not_explicit r ->
        get r "then" = Done (VFun (Then Pending)) ->
        forall fuel request response w,
          finalize env (S fuel) (probe "success") (probe "failure") request response r w
          = (Done tt, w)).
Proof.
  intros contract. split; [|split].
  - intros r o H.
    destruct (finalizer_resolves env r o H (or_introl contract)) as [n Hn].
    exists n. intros fuel Hf request response w. unfold finalize.
    destruct (Hn fuel Hf (probe "success") (probe "failure") request response w) as [E|E];
      rewrite E.
    + apply continue_probes.
    + apply swallow_done, continue_probes.
  - intros r f P fuel request response w. now apply finalizer_streams_silent with f.
  - intros r H1 H2 H3 fuel request response w. now apply finalizer_pending.
Qed.

Lemma finalize_one_terminal_action_witness :
  ProblemContract (Problem Sample.env)
  /\ Resolves Sample.env
       (Sample.promise (Fulfilled (Sample.explicitPromise (Fulfilled VNull))))
       (Fails (internal_emptyResponse Sample.P))
  /\ exists n, forall fuel, n <= fuel ->
       forall request response w,
         finalize Sample.env fuel (probe "success") (probe "failure") request response
           (Sample.promise (Fulfilled (Sample.explicitPromise (Fulfilled VNull)))) w
         = (Done tt, w ++ [Continue "failure" (internal_emptyResponse Sample.P)]).
Proof.
  assert (R : Resolves Sample.env
       (Sample.promise (Fulfilled (Sample.explicitPromise (Fulfilled VNull))))
       (Fails (internal_emptyResponse Sample.P))).
  { eapply res_promise_fulfilled;
      [eexists; split; reflexivity | eexists; split; reflexivity | reflexivity |].
    eapply res_explicit_fulfilled;
      [eexists; split; reflexivity | reflexivity | reflexivity | reflexivity |].
    apply (res_absent Sample.env). reflexivity. }
  split; [exact sample_contract | split; [exact R |]].
  exact (proj1 (finalize_one_terminal_action Sample.env sample_contract) _ _ R).
Defined.

(** C1, as stated, fails on a streamable result: whatever the collaborators
    and the fuel, the resolver of the JSON adapter registers the listener and
    starts piping, and calls neither continuation.  It fails as well on a
    promise that never settles: nothing at all happens. *)
Lemma finalize_streamable_no_terminal_action :
  (forall env fuel,
     continued (snd (finalize env fuel (probe "success") (probe "failure")
                       (Some TheRequest) (Some TheResponse) Sample.stream []))
     = [])
  /\ (forall env fuel,
        finalize env (S fuel) (probe "success") (probe "failure")
          (Some TheRequest) (Some TheResponse) Sample.stream []
        = (Done tt, [Listen TheRequest "close" (Release Sample.stream); Invoked "pipe"]))
  /\ (forall env fuel,
        finalize env (S fuel) (probe "success") (probe "failure")
          (Some TheRequest) (Some TheResponse) (Sample.promise Pending) []
        = (Done tt, [])).
Proof. repeat split; intros env [|fuel]; reflexivity. Qed.

(** C5. Given an absent result (null or undefined), the resolver puts the
    fixed empty-response error of [Problem.internal] in its place and its
    whole effect is one call of the failure continuation on that error;
    success is not called.  The error is classified as an internal error: its
    status is of the 5xx family, so it is not the 404 of a not-found. *)
Theorem finalize_absent_is_internal_failure (env : Collaborators) (v : value) :
  ProblemContract (Problem env) ->
  nullish v = true ->
  forall fuel request response w,
    (forall success failure,
        finalize env (S fuel) success failure request response v w
        = failure (internal_emptyResponse (Problem env)) w)
    /\ finalize env (S fuel) (probe "success") (probe "failure") request response v w
       = (Done tt, w ++ [Continue "failure" (internal_emptyResponse (Problem env))])
    /\ classified InternalError (internal_emptyResponse (Problem env)) = true
    /\ exists c, get (internal_emptyResponse (Problem env)) "httpCode" = Done (VNum c)
                 /\ (inject_Z 500 <= c)%Q /\ (c < inject_Z 600)%Q
                 /\ ~ (c == inject_Z 404)%Q.
Proof.
  intros contract Hv fuel request response w.
  split; [|split; [|split]].
  - intros success failure. now apply finalizer_absent.
  - unfold finalize. now rewrite finalizer_absent.
  - apply contract.
  - destruct (classified_dispatch _ _ (emptyResponse_internal _ contract))
      as [_ _ _ _ _ [c [Hc Hf]] _].
    exists c. destruct (family_internal _ Hf) as [Hlo Hhi].
    repeat split; trivial.
    intros E. rewrite E in Hlo. revert Hlo. apply Qlt_not_le. reflexivity.
Qed.

Lemma finalize_absent_is_internal_failure_witness :
  ProblemContract (Problem Sample.env)
  /\ nullish VUndefined = true
  /\ finalize Sample.env 1 (probe "success") (probe "failure")
       (Some TheRequest) (Some TheResponse) VUndefined []
     = (Done tt, [Continue "failure" (internal_emptyResponse Sample.P)]).
Proof.
  split; [exact sample_contract | split; [reflexivity |]].
  exact (proj1 (proj2 (finalize_absent_is_internal_failure Sample.env VUndefined
                         sample_contract eq_refl 0 (Some TheRequest) (Some TheResponse) []))).
Defined.

(** C7. When the handler wrapped by the JSON adapter returns a result that
    resolves to the plain value [v] (at once, or through promises), the
    adapter defaults the content type to json if the response has none yet,
    sets the status to 200 and sends the serialization of [v]; nothing is
    handed to the downstream continuation. *)
Theorem endpoint_plain_value (env : Collaborators) (f : handler) (request : Request)
    (r v : value) (w w1 : World) :
  f request w = (Done r, w1) ->
  Resolves env r (Succeeds v) ->
  exists n, forall fuel, n <= fuel ->
    forall next,
      endpoint env fuel f request next w
      = (Done tt,
         w1 ++ (if existsb (sets_header "Content-Type") w1 then []
                else [Resp (ContentType "json")])
            ++ [Resp (Status (num 200)); Resp (Send (serialize env v))]).
Proof.
  intros Hf Hr.
  destruct (finalizer_resolves env r _ Hr (or_intror (ex_intro _ v eq_refl))) as [n Hn].
  exists n. intros fuel Hfuel next.
  assert (S : endpoint_success env v w1
              = (Done tt,
                 w1 ++ (if existsb (sets_header "Content-Type") w1 then []
                        else [Resp (ContentType "json")])
                    ++ [Resp (Status (num 200)); Resp (Send (serialize env v))])).
  { unfold endpoint_success, bind, hasHeader, respond, tell, ret.
    destruct (existsb (sets_header "Content-Type") w1); cbn;
      rewrite <- ?app_assoc; reflexivity. }
  unfold endpoint, finalize. unfold bind at 1. rewrite Hf.
  destruct (Hn fuel Hfuel (endpoint_success env) next (Some TheRequest) (Some TheResponse) w1)
    as [E|E]; rewrite E; cbn [continue]; [exact S | exact (swallow_done _ _ _ S)].
Qed.

Lemma endpoint_plain_value_witness :
  Resolves Sample.env (Sample.promise (Fulfilled (VObj [("a", num 1)])))
    (Succeeds (VObj [("a", num 1)]))
  /\ exists n, forall fuel, n <= fuel ->
       forall next,
         endpoint Sample.env fuel
           (fun _ => ret (Sample.promise (Fulfilled (VObj [("a", num 1)]))))
           Sample.collect next []
         = (Done tt, [Resp (ContentType "json"); Resp (Status (num 200));
                      Resp (Send (VObj [("a", num 1)]))]).
Proof.
  assert (R : Resolves Sample.env (Sample.promise (Fulfilled (VObj [("a", num 1)])))
                (Succeeds (VObj [("a", num 1)]))).
  { eapply res_promise_fulfilled;
      [eexists; split; reflexivity | eexists; split; reflexivity | reflexivity |].
    eapply res_value; try (eexists; split; reflexivity); reflexivity. }
  split; [exact R |].
  exact (endpoint_plain_value Sample.env
           (fun _ => ret (Sample.promise (Fulfilled (VObj [("a", num 1)]))))
           Sample.collect _ _ [] [] eq_refl R).
Defined.

(** ** Streaming and the close of the request *)

Lemma listeners_app (t : ref) (ev : string) (w w' : World) :
  listeners t ev (w ++ w') = listeners t ev w ++ listeners t ev w'.
Proof.
  induction w as [|e w IH]; [reflexivity|].
  destruct e; simpl; try exact IH.
  destruct (ref_eqb t target && String.eqb ev ev0); simpl; now rewrite IH.
Qed.

Lemma listeners_effect (t : ref) (ev : string) (f : func) :
  listeners t ev (effect_of f) = [].
Proof. destruct f; reflexivity. Qed.

Lemma invocations_app (m : string) (w w' : World) :
  invocations m (w ++ w') = invocations m w + invocations m w'.
Proof.
  induction w as [|e w IH]; [reflexivity|].
  destruct e; simpl; rewrite ?IH; try reflexivity. lia.
Qed.

Lemma invocations_repeat (m : string) (a n : nat) :
  invocations m (List.concat (repeat (effect_of (Method m a)) n)) = n.
Proof.
  induction n as [|n IH]; [reflexivity|].
  change (invocations m (Invoked m :: List.concat (repeat (effect_of (Method m a)) n))
          = S n).
  cbn [invocations]. now rewrite String.eqb_refl, IH.
Qed.

(** One emission of close runs the listener once. *)
Lemma emit_close_release (r : value) (e : func) (w : World) :
  listeners TheRequest "close" w = [Release r] ->
  get r "end" = Done (VFun e) ->
  emit TheRequest "close" w = (Done tt, w ++ effect_of e).
Proof.
  intros L E. unfold emit. rewrite L. cbn [run_all run_listener].
  unfold bind at 1. rewrite (bind_get _ _ _ _ _ E). cbn [is_function].
  destruct e; cbn; unfold bind, ret, tell; cbn; rewrite ?app_nil_r; reflexivity.
Qed.

Lemma emit_close_no_release (r x : value) (w : World) :
  listeners TheRequest "close" w = [Release r] ->
  get r "end" = Done x -> is_function x = false ->
  emit TheRequest "close" w = (Done tt, w).
Proof.
  intros L E N. unfold emit. rewrite L. cbn [run_all run_listener].
  unfold bind at 1. rewrite (bind_get _ _ _ _ _ E), N. reflexivity.
Qed.

Lemma closes_release (r : value) (e : func) (n : nat) :
  get r "end" = Done (VFun e) ->
  forall w, listeners TheRequest "close" w = [Release r] ->
    closes n w = (Done tt, w ++ List.concat (repeat (effect_of e) n)).
Proof.
  intros E. induction n as [|n IH]; intros w L.
  - cbn. unfold ret. now rewrite app_nil_r.
  - cbn [closes]. unfold bind. rewrite (emit_close_release _ _ _ L E).
    rewrite IH.
    + cbn [repeat List.concat]. now rewrite app_assoc.
    + now rewrite listeners_app, listeners_effect, app_nil_r.
Qed.

Lemma closes_no_release (r x : value) (n : nat) (w : World) :
  get r "end" = Done x -> is_function x = false ->
  listeners TheRequest "close" w = [Release r] ->
  closes n w = (Done tt, w).
Proof.
  intros E N L. induction n as [|n IH]; [reflexivity|].
  cbn [closes]. unfold bind. now rewrite (emit_close_no_release _ _ _ L E N).
Qed.

(** C4 (as amended). Given the request, the resolver handles a streamable
    result by registering a listener on the close event of the request with
    [on], and only then calling [pipe].  The listener stays registered: the
    release capability [end], when it is a function, is called once at each
    emission of close, hence not at all when the stream completes without a
    close, once when the request closes once, and [n] times over [n]
    emissions.  When [end] is not a function, nothing is called. *)
Theorem streamable_release_at_each_close (env : Collaborators) (r : value) (f : func)
    (w : World) :
  get r "pipe" = Done (VFun f) ->
  listeners TheRequest "close" w = [] ->
  forall fuel success failure response,
    let w1 := w ++ [Listen TheRequest "close" (Release r)] ++ effect_of f in
    finalize env (S fuel) success failure (Some TheRequest) response r w = (Done tt, w1)
    /\ (forall e n, get r "end" = Done (VFun e) ->
          closes n w1 = (Done tt, w1 ++ List.concat (repeat (effect_of e) n)))
    /\ (forall m a n, get r "end" = Done (VFun (Method m a)) ->
          invocations m (snd (closes n w1)) = invocations m w1 + n)
    /\ (forall x n, get r "end" = Done x -> is_function x = false ->
          closes n w1 = (Done tt, w1)).
Proof.
  intros P L fuel success failure response w1.
  assert (L1 : listeners TheRequest "close" w1 = [Release r]).
  { unfold w1. rewrite !listeners_app, L, listeners_effect. reflexivity. }
  split; [|split; [|split]].
  - unfold finalize. now apply finalizer_streams.
  - intros e n E. now apply closes_release with r.
  - intros m a n E. rewrite (closes_release r _ n E w1 L1). cbn [snd].
    now rewrite invocations_app, invocations_repeat.
  - intros x n E N. now apply closes_no_release with r x.
Qed.

Lemma streamable_release_at_each_close_witness :
  get Sample.stream "pipe" = Done (VFun (Method "pipe" 2))
  /\ listeners TheRequest "close" [] = []
  /\ finalize Sample.env 1 (probe "success") (probe "failure")
       (Some TheRequest) (Some TheResponse) Sample.stream []
     = (Done tt, [Listen TheRequest "close" (Release Sample.stream); Invoked "pipe"]).
Proof.
  split; [reflexivity | split; [reflexivity |]].
  exact (proj1 (streamable_release_at_each_close Sample.env Sample.stream
                  (Method "pipe" 2) [] eq_refl eq_refl 0
                  (probe "success") (probe "failure") (Some TheResponse))).
Defined.

(** C4, as stated, fails: the listener is not a one-time listener.  When the
    request emits close twice, the release capability of the stream runs
    twice. *)
Lemma streamable_released_twice :
  (forall env fuel,
     snd (bind (finalize env (S fuel) (probe "success") (probe "failure")
                  (Some TheRequest) (Some TheResponse) Sample.stream)
               (fun _ => closes 2) [])
     = [Listen TheRequest "close" (Release Sample.stream); Invoked "pipe";
        Invoked "end"; Invoked "end"])
  /\ (forall env fuel,
        invocations "end"
          (snd (bind (finalize env (S fuel) (probe "success") (probe "failure")
                        (Some TheRequest) (Some TheResponse) Sample.stream)
                     (fun _ => closes 2) []))
        = 2).
Proof. split; intros env fuel; reflexivity. Qed.

(** ** The protocol adapter *)

Lemma header_of_app (name : string) (w l : World) :
  header_of name (w ++ l)
  = match header_of name l with
    | Some v => Some v
    | None => header_of name w
    end.
Proof.
  induction w as [|e w IH]; cbn [app header_of].
  - now destruct (header_of name l).
  - rewrite IH. now destruct (header_of name l).
Qed.

(** What is left of the adapter once the five calls on the response at its
    head are done. *)
Lemma openRosaEndpoint_unfold (env : Collaborators) fuel f request rawNext w :
  openRosaEndpoint env fuel f request rawNext w
  = (if negb (is_str "1.0" (of_header (header "x-openrosa-version" (headers request))))
     then openRosa_next rawNext
            (invalidHeader env "X-OpenRosa-Version"
               (header "x-openrosa-version" (headers request)))
     else if negb (fromHTTP_isValid env (patchedDate request))
     then openRosa_next rawNext
            (invalidHeader env "Date" (header "date" (headers request)))
     else bind (f request)
            (fun result =>
               finalize env fuel openRosa_success (openRosa_next rawNext)
                 None None result))
      (w ++ mandated env).
Proof.
  unfold openRosaEndpoint. rewrite !bind_respond.
  unfold mandated. cbn [String.append]. now rewrite <- !app_assoc.
Qed.

Lemma is_version_1_0 (h : option string) :
  is_str "1.0" (of_header h) = true <-> h = Some "1.0".
Proof.
  destruct h as [s|]; cbn; split; intros H; try discriminate H.
  - apply String.eqb_eq in H. now subst.
  - injection H as ->. reflexivity.
Qed.

Lemma forOpenRosa_classified (k : kind) (p : value) :
  classified k p = true -> forOpenRosa p = VObj [("forOpenRosa", p)].
Proof.
  intros H. destruct (classified_dispatch _ _ H) as [_ _ _ P _ _ _].
  unfold forOpenRosa. now rewrite (get_nullish _ _ _ P), P.
Qed.

(** C6. For every request on the protocol adapter, whether it is then
    rejected for its version header, rejected for its date, or handed to the
    handler, the first thing done is to set Content-Language to en,
    X-OpenRosa-Version to 1.0, X-OpenRosa-Accept-Content-Length to 20000000
    and Date to the current HTTP date: the downstream continuation, or the
    handler, starts from a response on which they are set. *)
Theorem openRosa_headers_first (env : Collaborators) (fuel : nat) (f : handler)
    (request : Request) (rawNext : value -> M unit) (w : World) :
  let version := header "x-openrosa-version" (headers request) in
  let date := header "date" (headers request) in
  let w1 := w ++ mandated env in
  openRosaEndpoint env fuel f request rawNext w
  = (if negb (is_str "1.0" (of_header version))
     then openRosa_next rawNext (invalidHeader env "X-OpenRosa-Version" version) w1
     else if negb (fromHTTP_isValid env (patchedDate request))
     then openRosa_next rawNext (invalidHeader env "Date" date) w1
     else bind (f request)
            (fun result =>
               finalize env fuel openRosa_success (openRosa_next rawNext)
                 None None result) w1)
  /\ header_of "Content-Language" w1 = Some "en"
  /\ header_of "X-OpenRosa-Version" w1 = Some "1.0"
  /\ header_of "X-OpenRosa-Accept-Content-Length" w1 = Some "20000000"
  /\ header_of "Date" w1 = Some (local_toHTTP env).
Proof.
  intros version date w1. split.
  - rewrite openRosaEndpoint_unfold. fold version date w1.
    destruct (negb (is_str "1.0" (of_header version))); [reflexivity|].
    now destruct (negb (fromHTTP_isValid env (patchedDate request))).
  - unfold w1. rewrite !header_of_app. repeat split; reflexivity.
Qed.

Lemma replace_gmt_first_match (p s : string) :
  Str.gmt_match s = true ->
  (forall p1 p2, p = String.append p1 p2 -> p2 <> EmptyString ->
                 Str.gmt_match (String.append p2 s) = false) ->
  Str.replace_gmt (String.append p s) = String.append p "GMT".
Proof.
  intros Hs. induction p as [|c p IH]; intros Hp.
  - cbn [String.append]. destruct s; cbn [Str.replace_gmt]; now rewrite Hs.
  - assert (H0 : Str.gmt_match (String c (String.append p s)) = false).
    { apply (Hp EmptyString (String c p) eq_refl). discriminate. }
    cbn [String.append Str.replace_gmt]. rewrite H0.
    f_equal. apply IH. intros p1 p2 E N.
    apply (Hp (String c p1) p2); [now rewrite E | exact N].
Qed.

Lemma replace_gmt_no_match_at_all (s : string) :
  (forall p1 p2, s = String.append p1 p2 -> Str.gmt_match p2 = false) ->
  Str.replace_gmt s = s.
Proof.
  induction s as [|c s IH]; intros H.
  - reflexivity.
  - cbn [Str.replace_gmt]. rewrite (H EmptyString (String c s) eq_refl).
    f_equal. apply IH. intros p1 p2 E. apply (H (String c p1) p2). now rewrite E.
Qed.

(** C3. The validation gate of the protocol adapter runs before the handler.
    When the x-openrosa-version header is not exactly 1.0 (or is missing) the
    adapter hands to the downstream continuation the user error made for the
    field X-OpenRosa-Version and the value received; otherwise, when the date
    header, in which everything from the leftmost GMT on has been rewritten
    to GMT, does not parse as a valid date (or is missing), it hands over the
    user error made for the field Date and the value received.  In both
    cases the result does not depend on the handler: it is not called.  When
    both checks pass the handler is called. *)
Theorem openRosa_validation_gate (env : Collaborators) (request : Request) :
  ProblemContract (Problem env) ->
  let version := header "x-openrosa-version" (headers request) in
  let date := header "date" (headers request) in
  (version <> Some "1.0" ->
     forall fuel f rawNext w,
       openRosaEndpoint env fuel f request rawNext w
       = rawNext (VObj [("forOpenRosa", invalidHeader env "X-OpenRosa-Version" version)])
           (w ++ mandated env))
  /\ (version = Some "1.0" ->
      fromHTTP_isValid env (option_map Str.replace_gmt date) = false ->
      forall fuel f rawNext w,
        openRosaEndpoint env fuel f request rawNext w
        = rawNext (VObj [("forOpenRosa", invalidHeader env "Date" date)])
            (w ++ mandated env))
  /\ (version = Some "1.0" -> date = None -> fromHTTP_isValid env None = false ->
      forall fuel f rawNext w,
        openRosaEndpoint env fuel f request rawNext w
        = rawNext (VObj [("forOpenRosa", invalidHeader env "Date" None)])
            (w ++ mandated env))
  /\ (version = Some "1.0" ->
      fromHTTP_isValid env (option_map Str.replace_gmt date) = true ->
      forall fuel f rawNext w,
        openRosaEndpoint env fuel f request rawNext w
        = bind (f request)
            (fun result =>
               finalize env fuel openRosa_success (openRosa_next rawNext)
                 None None result)
            (w ++ mandated env))
  /\ (forall field val,
        classified UserError (invalidHeader env field val) = true
        /\ get (invalidHeader env field val) "problemDetails"
           = Done (VObj [("field", VStr field); ("value", of_header val)]))
  /\ (forall p s, Str.gmt_match s = true ->
        (forall p1 p2, p = String.append p1 p2 -> p2 <> EmptyString ->
                       Str.gmt_match (String.append p2 s) = false) ->
        Str.replace_gmt (String.append p s) = String.append p "GMT").
Proof.
  intros contract version date.
  assert (Hpatch : patchedDate request = option_map Str.replace_gmt date).
  { unfold patchedDate. fold date. now destruct date. }
  assert (Hwrap : forall field val,
             forOpenRosa (invalidHeader env field val)
             = VObj [("forOpenRosa", invalidHeader env field val)]).
  { intros field val. apply forOpenRosa_classified with UserError.
    apply (invalidHeader_user _ contract). }
  assert (Hdate : version = Some "1.0" ->
            fromHTTP_isValid env (option_map Str.replace_gmt date) = false ->
            forall fuel f rawNext w,
              openRosaEndpoint env fuel f request rawNext w
              = rawNext (VObj [("forOpenRosa", invalidHeader env "Date" date)])
                  (w ++ mandated env)).
  { intros Hv Hd fuel f rawNext w. rewrite openRosaEndpoint_unfold.
    fold version date. apply is_version_1_0 in Hv. rewrite Hv, Hpatch, Hd.
    cbn [negb]. unfold openRosa_next. now rewrite Hwrap. }
  repeat split.
  - intros Hv fuel f rawNext w. rewrite openRosaEndpoint_unfold. fold version.
    destruct (is_str "1.0" (of_header version)) eqn:E.
    + apply is_version_1_0 in E. contradiction.
    + cbn [negb]. unfold openRosa_next. now rewrite Hwrap.
  - exact Hdate.
  - intros Hv Hnone Hd. rewrite <- Hnone. apply Hdate; [exact Hv|]. now rewrite Hnone.
  - intros Hv Hd fuel f rawNext w. rewrite openRosaEndpoint_unfold.
    fold version date. apply is_version_1_0 in Hv. now rewrite Hv, Hpatch, Hd.
  - apply (invalidHeader_user _ contract).
  - apply (invalidHeader_user _ contract).
  - intros p s. apply replace_gmt_first_match.
Qed.

Lemma openRosa_validation_gate_witness :
  ProblemContract (Problem Sample.env)
  /\ header "x-openrosa-version" [("date", "Tue, 01 Jan 2030 00:00:00 GMT")]
     <> Some "1.0"
  /\ forall fuel f rawNext w,
       openRosaEndpoint Sample.env fuel f
         {| headers := [("date", "Tue, 01 Jan 2030 00:00:00 GMT")] |} rawNext w
       = rawNext
           (VObj [("forOpenRosa", invalidHeader Sample.env "X-OpenRosa-Version" None)])
           (w ++ mandated Sample.env).
Proof.
  split; [exact sample_contract | split; [discriminate |]].
  apply (proj1 (openRosa_validation_gate Sample.env
                  {| headers := [("date", "Tue, 01 Jan 2030 00:00:00 GMT")] |}
                  sample_contract)).
  discriminate.
Defined.

(** ** The error translator *)

Lemma get_prop (v : value) (k : string) :
  nullish v = false -> get v k = Done (prop v k).
Proof.
  intros H. unfold prop. destruct (get_total v k H) as [x E]. now rewrite E.
Qed.

Section Translator.

Variable env : Collaborators.

(** First branch: the value owns a protocol discriminant. *)
Lemma sendError_wrapped (e p : value) fuel w :
  hasOwnProperty e "forOpenRosa" = Done true ->
  get e "forOpenRosa" = Done p ->
  nullish p = false ->
  sendError env (S fuel) e w
  = (Done tt,
     w ++ [Resp (Status (prop p "httpCode"));
           Resp (Send (prop (VObj (openRosaMessage env (prop p "code")
                                     (VObj [("nature", VStr "error");
                                            ("message", prop p "message")])))
                         "body"))]).
Proof.
  intros Ho Hp Hn. cbn [sendError].
  rewrite (bind_lift _ _ _ _ Ho).
  rewrite (bind_get _ _ _ _ _ Hp).
  rewrite (bind_get _ _ _ _ _ (get_prop p "httpCode" Hn)), bind_respond.
  rewrite (bind_get _ _ _ _ _ (get_prop p "code" Hn)).
  rewrite (bind_get _ _ _ _ _ (get_prop p "message" Hn)).
  rewrite (bind_get _ _ _ _ _ (get_prop (VObj _) "body" eq_refl)).
  unfold respond, tell. now rewrite <- app_assoc.
Qed.

(** Second branch: no discriminant, the marker of a classified error. *)
Lemma sendError_problem (e : value) fuel w :
  hasOwnProperty e "forOpenRosa" = Done false ->
  get e "isProblem" = Done (VBool true) ->
  sendError env (S fuel) e w
  = (Done tt,
     w ++ [Resp (Status (prop e "httpCode"));
           Resp (ContentType "application/json");
           Resp (Send (VObj [("message", prop e "message");
                             ("code", prop e "problemCode");
                             ("details", prop e "problemDetails")]))]).
Proof.
  intros Ho Hp. pose proof (hasOwn_nullish _ _ _ Ho) as Hn. cbn [sendError].
  rewrite (bind_lift _ _ _ _ Ho).
  rewrite (bind_get _ _ _ _ _ Hp). cbn [is_true].
  rewrite (bind_get _ _ _ _ _ (get_prop e "httpCode" Hn)), !bind_respond.
  rewrite (bind_get _ _ _ _ _ (get_prop e "message" Hn)).
  rewrite (bind_get _ _ _ _ _ (get_prop e "problemCode" Hn)).
  rewrite (bind_get _ _ _ _ _ (get_prop e "problemDetails" Hn)).
  unfold respond, tell. now rewrite <- !app_assoc.
Qed.

(** Third branch: the marker of a body-decoding failure. *)
Lemma sendError_parse_failed (e b : value) fuel w :
  hasOwnProperty e "forOpenRosa" = Done false ->
  is_true (prop e "isProblem") = false ->
  get e "type" = Done (VStr "entity.parse.failed") ->
  get e "body" = Done b ->
  nullish b = false ->
  sendError env (S fuel) e w
  = sendError env fuel
      (user_unparseable (Problem env)
         (VObj [("format", VStr "json"); ("rawLength", prop b "length")])) w.
Proof.
  intros Ho Hp Ht Hb Hn. pose proof (hasOwn_nullish _ _ _ Ho) as He.
  cbn [sendError].
  rewrite (bind_lift _ _ _ _ Ho).
  rewrite (bind_get _ _ _ _ _ (get_prop e "isProblem" He)), Hp.
  rewrite (bind_get _ _ _ _ _ Ht). cbn [is_str String.eqb Ascii.eqb Bool.eqb].
  rewrite (bind_get _ _ _ _ _ Hb).
  now rewrite (bind_get _ _ _ _ _ (get_prop b "length" Hn)).
Qed.

(** Last branch: an unclassified fault. *)
Lemma sendError_fault (e : value) fuel w :
  unclassified e ->
  sendError env (S fuel) e w
  = (Done tt,
     w ++ [Breakpoint;
           Stderr (inspect env e);
           Resp (Status (num 500));
           Resp (ContentType "application/json");
           Resp (Send (VObj
             [("message", VStr (String.append "Completely unhandled exception: "
                                  (to_string env (prop e "message"))));
              ("details", VObj (fault_details e))]))]).
Proof.
  intros [Ho [Hp [Ht Hs]]]. pose proof (hasOwn_nullish _ _ _ Ho) as He.
  cbn [sendError].
  rewrite (bind_lift _ _ _ _ Ho).
  rewrite (bind_get _ _ _ _ _ (get_prop e "isProblem" He)), Hp.
  rewrite (bind_get _ _ _ _ _ (get_prop e "type" He)), Ht.
  rewrite (bind_get _ _ _ _ _ (get_prop e "stack" He)).
  unfold fault_details.
  destruct Hs as [Hs|[s Hs]].
  - rewrite Hs. cbn [negb]. unfold bind at 1, ret at 1.
    rewrite !bind_tell, !bind_respond.
    rewrite (bind_get _ _ _ _ _ (get_prop e "message" He)).
    unfold respond, tell. rewrite <- !app_assoc.
    destruct (prop e "stack"); try discriminate Hs; reflexivity.
  - rewrite Hs. cbn [nullish negb stack_lines].
    unfold bind at 1. unfold bind at 1, lift at 1, ret at 1.
    rewrite !bind_tell, !bind_respond.
    rewrite (bind_get _ _ _ _ _ (get_prop e "message" He)).
    unfold respond, tell. now rewrite <- !app_assoc.
Qed.

End Translator.

(** Whatever the value, a pass of the translator that returns has sent
    exactly one body. *)
Lemma sendError_sends_once (env : Collaborators) :
  forall fuel e w w',
    sendError env fuel e w = (Done tt, w') ->
    exists evs, w' = w ++ evs /\ sends evs = 1.
Proof.
  induction fuel as [|fuel IH]; intros e w w' H; [discriminate H|].
  cbn [sendError] in H. unfold bind at 1, lift at 1 in H.
  destruct (hasOwnProperty e "forOpenRosa") as [[|]|x|] eqn:Ho; try discriminate H.
  - unfold bind, lift, respond, tell in H.
    destruct (get e "forOpenRosa") as [p|x|]; try discriminate H.
    destruct (get p "httpCode") as [c|x|]; try discriminate H.
    destruct (get p "code") as [c'|x|]; try discriminate H.
    destruct (get p "message") as [m|x|]; try discriminate H.
    match type of H with
    | context [get ?o "body"] => destruct (get o "body") as [b|x|]; try discriminate H
    end.
    injection H as <-. rewrite <- app_assoc. eexists. split; reflexivity.
  - unfold bind at 1, lift at 1 in H.
    destruct (get e "isProblem") as [ip|x|]; try discriminate H.
    destruct (is_true ip).
    + unfold bind, lift, respond, tell in H.
      destruct (get e "httpCode") as [c|x|]; try discriminate H.
      destruct (get e "message") as [m|x|]; try discriminate H.
      destruct (get e "problemCode") as [pc|x|]; try discriminate H.
      destruct (get e "problemDetails") as [pd|x|]; try discriminate H.
      injection H as <-. rewrite <- !app_assoc. eexists. split; reflexivity.
    + unfold bind at 1, lift at 1 in H.
      destruct (get e "type") as [t|x|]; try discriminate H.
      destruct (is_str "entity.parse.failed" t).
      * unfold bind at 1, lift at 1 in H.
        destruct (get e "body") as [b|x|]; try discriminate H.
        unfold bind at 1, lift at 1 in H.
        destruct (get b "length") as [n|x|]; try discriminate H.
        exact (IH _ _ _ H).
      * unfold bind at 1, lift at 1 in H.
        destruct (get e "stack") as [st|x|]; try discriminate H.
        unfold bind, lift, respond, tell, ret in H.
        destruct (negb (nullish st)).
        -- destruct (stack_lines st) as [ls|x|]; try discriminate H.
           destruct (get e "message") as [m|x|]; try discriminate H.
           injection H as <-. rewrite <- !app_assoc. eexists. split; reflexivity.
        -- destruct (get e "message") as [m|x|]; try discriminate H.
           injection H as <-. rewrite <- !app_assoc. eexists. split; reflexivity.
Qed.

(** C2 (as amended). For every error value that is not null, the translator
    selects exactly one rendering branch, testing the protocol discriminant
    before the marker of a classified error.  When the value owns
    [forOpenRosa], wrapping the classified error [p], whether or not the
    value also bears the marker, the status is the httpCode of [p] and the
    body is that of the envelope made by openRosaMessage with nature error
    and the message of [p].  Otherwise, when the value bears
    [isProblem === true], the status is its httpCode and the body is the
    object of its message, problemCode (as code) and problemDetails (as
    details), sent as application/json.  Whatever the value, a pass of the
    translator that returns has sent exactly one body.  On a value that is
    not null the three tests never raise and lead to one branch, and what
    the translator does is what that branch does: the envelope, which raises
    a TypeError before anything is written when the wrapped value is null;
    the JSON body of the classified error; the re-entry with the unparseable
    error of the Problem factory, which raises in the same way when the
    value has no body; the rendering of an unclassified fault. *)
Theorem sendError_discriminant_then_marker (env : Collaborators) (e : value) :
  (forall p,
      hasOwnProperty e "forOpenRosa" = Done true ->
      get e "forOpenRosa" = Done p ->
      nullish p = false ->
      forall fuel w,
        sendError env (S fuel) e w
        = (Done tt,
           w ++ [Resp (Status (prop p "httpCode"));
                 Resp (Send (prop (VObj (openRosaMessage env (prop p "code")
                                           (VObj [("nature", VStr "error");
                                                  ("message", prop p "message")])))
                               "body"))]))
  /\ (hasOwnProperty e "forOpenRosa" = Done false ->
      get e "isProblem" = Done (VBool true) ->
      forall fuel w,
        sendError env (S fuel) e w
        = (Done tt,
           w ++ [Resp (Status (prop e "httpCode"));
                 Resp (ContentType "application/json");
                 Resp (Send (VObj [("message", prop e "message");
                                   ("code", prop e "problemCode");
                                   ("details", prop e "problemDetails")]))]))
  /\ (forall fuel w w',
        sendError env fuel e w = (Done tt, w') ->
        exists evs, w' = w ++ evs /\ sends evs = 1)
  /\ (nullish e = false ->
      exists b,
        selects e = Done b
        /\ (forall b', selects e = Done b' -> b' = b)
        /\ match b with
           | Envelope =>
               hasOwnProperty e "forOpenRosa" = Done true
               /\ get e "forOpenRosa" = Done (prop e "forOpenRosa")
               /\ (nullish (prop e "forOpenRosa") = true ->
                   forall fuel w,
                     sendError env (S fuel) e w = (Thrown TypeError, w))
           | Classified =>
               hasOwnProperty e "forOpenRosa" = Done false
               /\ get e "isProblem" = Done (VBool true)
           | ParseFailure =>
               hasOwnProperty e "forOpenRosa" = Done false
               /\ is_true (prop e "isProblem") = false
               /\ prop e "type" = VStr "entity.parse.failed"
               /\ (nullish (prop e "body") = false ->
                   forall fuel w,
                     sendError env (S fuel) e w
                     = sendError env fuel
                         (user_unparseable (Problem env)
                            (VObj [("format", VStr "json");
                                   ("rawLength", prop (prop e "body") "length")])) w)
               /\ (nullish (prop e "body") = true ->
                   forall fuel w,
                     sendError env (S fuel) e w = (Thrown TypeError, w))
           | Fault =>
               hasOwnProperty e "forOpenRosa" = Done false
               /\ is_true (prop e "isProblem") = false
               /\ is_str "entity.parse.failed" (prop e "type") = false
               /\ (nullish (prop e "stack") = true \/ (exists s, prop e "stack" = VStr s) ->
                   forall fuel w,
                     sendError env (S fuel) e w
                     = (Done tt,
                        w ++ [Breakpoint;
                              Stderr (inspect env e);
                              Resp (Status (num 500));
                              Resp (ContentType "application/json");
                              Resp (Send (VObj
                                [("message",
                                  VStr (String.append "Completely unhandled exception: "
                                          (to_string env (prop e "message"))));
                                 ("details", VObj (fault_details e))]))]))
           end).
Proof.
  split; [|split; [|split]].
  - intros p Ho Hp Hn fuel w. now apply sendError_wrapped.
  - intros Ho Hp fuel w. now apply sendError_problem.
  - intros fuel w w'. apply sendError_sends_once.
  - intros He.
    assert (Hown : exists o, hasOwnProperty e "forOpenRosa" = Done o).
    { destruct e; try discriminate He; cbn [hasOwnProperty]; eauto.
      destruct (lookup "forOpenRosa" props); eauto. }
    destruct Hown as [o Ho]. unfold selects. rewrite Ho. destruct o.
    + exists Envelope. split; [reflexivity|].
      split; [intros b' H; now injection H|].
      split; [reflexivity|]. split; [now apply get_prop|].
      intros Hn fuel w. cbn [sendError].
      rewrite (bind_lift _ _ _ _ Ho).
      rewrite (bind_get _ _ _ _ _ (get_prop e "forOpenRosa" He)).
      unfold bind, lift.
      destruct (prop e "forOpenRosa"); try discriminate Hn; reflexivity.
    + destruct (is_true (prop e "isProblem")) eqn:Hp.
      * exists Classified. split; [reflexivity|].
        split; [intros b' H; now injection H|].
        split; [reflexivity|]. rewrite (get_prop e "isProblem" He).
        destruct (prop e "isProblem") as [| |[|]| | | | |]; try discriminate Hp.
        reflexivity.
      * destruct (is_str "entity.parse.failed" (prop e "type")) eqn:Ht.
        -- assert (Hty : prop e "type" = VStr "entity.parse.failed").
           { destruct (prop e "type") as [| | | |s| | |]; try discriminate Ht.
             cbn [is_str] in Ht. apply String.eqb_eq in Ht. now subst s. }
           exists ParseFailure. split; [reflexivity|].
           split; [intros b' H; now injection H|].
           split; [reflexivity|]. split; [reflexivity|]. split; [exact Hty|].
           split.
           ++ intros Hb fuel w.
              apply sendError_parse_failed; try assumption.
              ** rewrite <- Hty. now apply get_prop.
              ** now apply get_prop.
           ++ intros Hb fuel w. cbn [sendError].
              rewrite (bind_lift _ _ _ _ Ho).
              rewrite (bind_get _ _ _ _ _ (get_prop e "isProblem" He)), Hp.
              rewrite (bind_get _ _ _ _ _ (get_prop e "type" He)), Ht.
              rewrite (bind_get _ _ _ _ _ (get_prop e "body" He)).
              unfold bind, lift.
              destruct (prop e "body"); try discriminate Hb; reflexivity.
        -- exists Fault. split; [reflexivity|].
           split; [intros b' H; now injection H|].
           split; [reflexivity|]. split; [reflexivity|]. split; [reflexivity|].
           intros Hs fuel w. apply sendError_fault. repeat split; assumption.
Qed.

Lemma sendError_discriminant_then_marker_witness :
  hasOwnProperty
    (VObj [("isProblem", VBool true); ("httpCode", num 500);
           ("forOpenRosa", Sample.problem 400 (4002 # 10) "bad" VUndefined)])
    "forOpenRosa" = Done true
  /\ sendError Sample.env 1
       (VObj [("isProblem", VBool true); ("httpCode", num 500);
              ("forOpenRosa", Sample.problem 400 (4002 # 10) "bad" VUndefined)]) []
     = (Done tt,
        [Resp (Status (num 400));
         Resp (Send (VObj [("OpenRosaResponse",
                            VObj [("nature", VStr "error"); ("message", VStr "bad")])]))])
  /\ sendError Sample.env 1 (Sample.problem 409 (4091 # 10) "conflict" (VObj [("x", num 1)])) []
     = (Done tt,
        [Resp (Status (num 409)); Resp (ContentType "application/json");
         Resp (Send (VObj [("message", VStr "conflict"); ("code", VNum (4091 # 10));
                           ("details", VObj [("x", num 1)])]))])
  /\ nullish (VObj [("type", VStr "entity.parse.failed"); ("body", VStr "{oops")]) = false
  /\ exists b,
       selects (VObj [("type", VStr "entity.parse.failed"); ("body", VStr "{oops")])
       = Done b.
Proof.
  split; [reflexivity | split; [|split; [|split; [reflexivity|]]]].
  - exact (proj1 (sendError_discriminant_then_marker Sample.env
                    (VObj [("isProblem", VBool true); ("httpCode", num 500);
                           ("forOpenRosa", Sample.problem 400 (4002 # 10) "bad" VUndefined)]))
             _ eq_refl eq_refl eq_refl 0 []).
  - exact (proj1 (proj2 (sendError_discriminant_then_marker Sample.env
                    (Sample.problem 409 (4091 # 10) "conflict" (VObj [("x", num 1)]))))
             eq_refl eq_refl 0 []).
  - destruct (proj2 (proj2 (proj2 (sendError_discriminant_then_marker Sample.env
                (VObj [("type", VStr "entity.parse.failed"); ("body", VStr "{oops")]))))
              eq_refl) as [b [Hb _]].
    exists b. exact Hb.
Defined.

(** The translator on a value that is null: the test of the discriminant at
    line 86 raises a TypeError, no branch is selected and nothing is written
    on the response, neither a status nor a body. *)
Lemma sendError_null_selects_no_branch :
  selects VNull = Thrown TypeError
  /\ selects VUndefined = Thrown TypeError
  /\ (forall env fuel w, sendError env (S fuel) VNull w = (Thrown TypeError, w))
  /\ (forall env fuel w, sendError env (S fuel) VUndefined w = (Thrown TypeError, w)).
Proof. repeat split. Qed.

(** C8 (as amended). For every error value that is not null, owns no
    protocol discriminant, bears neither the marker of a classified error nor
    that of a body-decoding failure, and whose stack is absent or a string,
    the translator writes the inspection of the error to stderr and responds
    with status 500 and a JSON body whose message is "Completely unhandled
    exception: " followed by the message of the error, and whose details hold
    the stack split into trimmed lines when there is a stack, and nothing
    otherwise. *)
Theorem sendError_unclassified_fault (env : Collaborators) (e : value) :
  unclassified e ->
  (forall fuel w,
      sendError env (S fuel) e w
      = (Done tt,
         w ++ [Breakpoint;
               Stderr (inspect env e);
               Resp (Status (num 500));
               Resp (ContentType "application/json");
               Resp (Send (VObj
                 [("message", VStr (String.append "Completely unhandled exception: "
                                      (to_string env (prop e "message"))));
                  ("details", VObj (fault_details e))]))]))
  /\ (forall s, prop e "stack" = VStr s ->
        fault_details e
        = [("stack", VArr (List.map (fun l => VStr (Str.trim l)) (Str.split_lines s)))])
  /\ (nullish (prop e "stack") = true -> fault_details e = []).
Proof.
  intros H. split; [|split].
  - intros fuel w. now apply sendError_fault.
  - intros s Hs. unfold fault_details. now rewrite Hs.
  - intros Hs. unfold fault_details. destruct (prop e "stack"); try discriminate Hs; reflexivity.
Qed.

Lemma sendError_unclassified_fault_witness :
  unclassified (VObj [("message", VStr "boom"); ("stack", VStr "  Error: boom ")])
  /\ sendError Sample.env 1
       (VObj [("message", VStr "boom"); ("stack", VStr "  Error: boom ")]) []
     = (Done tt,
        [Breakpoint; Stderr "[inspect]"; Resp (Status (num 500));
         Resp (ContentType "application/json");
         Resp (Send (VObj [("message", VStr "Completely unhandled exception: boom");
                           ("details", VObj [("stack", VArr [VStr "Error: boom"])])]))]).
Proof.
  assert (U : unclassified (VObj [("message", VStr "boom"); ("stack", VStr "  Error: boom ")])).
  { repeat split; try reflexivity. right. eexists. reflexivity. }
  split; [exact U |].
  exact (proj1 (sendError_unclassified_fault Sample.env _ U) 0 []).
Defined.

(** C8, as stated, fails: the message of the body does not start with
    "unhandled exception: " but with "Completely unhandled exception: ";
    and on null, or on an error whose stack is not a string, the translator
    raises a TypeError and sends nothing. *)
Lemma sendError_fault_message_prefix :
  (forall env fuel,
      sendError env (S fuel) (VObj [("message", VStr "boom")]) []
      = (Done tt,
         [Breakpoint; Stderr (inspect env (VObj [("message", VStr "boom")]));
          Resp (Status (num 500));
          Resp (ContentType "application/json");
          Resp (Send (VObj [("message", VStr "Completely unhandled exception: boom");
                            ("details", VObj [])]))]))
  /\ "Completely unhandled exception: boom" <> String.append "unhandled exception: " "boom"
  /\ (forall env fuel, sendError env (S fuel) VNull [] = (Thrown TypeError, []))
  /\ (forall env fuel,
         sendError env (S fuel) (VObj [("message", VStr "boom"); ("stack", num 5)]) []
         = (Thrown TypeError, [])).
Proof.
  split; [|split; [|split]]; try discriminate; intros env fuel; reflexivity.
Qed.

(** C9 (as amended). For every error value that owns no protocol
    discriminant, does not bear the marker of a classified error, has the
    type entity.parse.failed and a body that is not null, the translator
    re-enters itself once, on the unparseable error made for the format json
    and the length of the body.  That error is a user error, so the second
    pass ends in the branch of classified errors: the response has its
    status, of the 4xx family, and the structured JSON body, whose details
    are the format and the length; the branch of unclassified faults is not
    reached.  Two units of fuel are enough. *)
Theorem sendError_body_parse_failure (env : Collaborators) (e b : value) :
  ProblemContract (Problem env) ->
  hasOwnProperty e "forOpenRosa" = Done false ->
  is_true (prop e "isProblem") = false ->
  get e "type" = Done (VStr "entity.parse.failed") ->
  get e "body" = Done b ->
  nullish b = false ->
  let data := VObj [("format", VStr "json"); ("rawLength", prop b "length")] in
  let u := user_unparseable (Problem env) data in
  forall fuel w,
    sendError env (S (S fuel)) e w = sendError env (S fuel) u w
    /\ classified UserError u = true
    /\ exists c,
         get u "httpCode" = Done (VNum c)
         /\ (inject_Z 400 <= c)%Q /\ (c < inject_Z 500)%Q
         /\ sendError env (S (S fuel)) e w
            = (Done tt,
               w ++ [Resp (Status (VNum c));
                     Resp (ContentType "application/json");
                     Resp (Send (VObj [("message", prop u "message");
                                       ("code", prop u "problemCode");
                                       ("details", data)]))]).
Proof.
  intros contract Ho Hp Ht Hb Hn data u fuel w.
  assert (E : sendError env (S (S fuel)) e w = sendError env (S fuel) u w)
    by now apply sendError_parse_failed.
  destruct (unparseable_user _ contract data) as [Hc Hd]. fold u in Hc, Hd.
  destruct (classified_dispatch _ _ Hc) as [_ _ _ P O [c [Hcode Hfam]] _].
  split; [exact E | split; [exact Hc |]].
  exists c. destruct (family_user _ Hfam) as [Hlo Hhi].
  repeat split; trivial.
  rewrite E, (sendError_problem env u fuel w O P).
  unfold prop at 1 4. now rewrite Hcode, Hd.
Qed.

Lemma sendError_body_parse_failure_witness :
  ProblemContract (Problem Sample.env)
  /\ hasOwnProperty (VObj [("type", VStr "entity.parse.failed"); ("body", VStr "{oops")])
       "forOpenRosa" = Done false
  /\ nullish (VStr "{oops") = false
  /\ sendError Sample.env 2
       (VObj [("type", VStr "entity.parse.failed"); ("body", VStr "{oops")]) []
     = sendError Sample.env 1
         (user_unparseable Sample.P
            (VObj [("format", VStr "json"); ("rawLength", num 5)])) [].
Proof.
  split; [exact sample_contract | split; [reflexivity | split; [reflexivity |]]].
  exact (proj1 (sendError_body_parse_failure Sample.env
                  (VObj [("type", VStr "entity.parse.failed"); ("body", VStr "{oops")])
                  (VStr "{oops") sample_contract eq_refl eq_refl eq_refl eq_refl eq_refl
                  0 [])).
Defined.

(** C9, as stated, fails on values that bear the marker of a body-decoding
    failure: without a body the translator raises a TypeError and sends
    nothing; with the marker of a classified error the value is rendered as
    it is, here with status 500 and with no second pass; and with a protocol
    discriminant it is rendered as an envelope. *)
Lemma sendError_parse_marker_not_enough :
  (forall env fuel,
      sendError env (S fuel) (VObj [("type", VStr "entity.parse.failed")]) []
      = (Thrown TypeError, []))
  /\ (forall env fuel,
         sendError env (S fuel)
           (VObj [("type", VStr "entity.parse.failed"); ("body", VStr "{oops");
                  ("isProblem", VBool true); ("httpCode", num 500);
                  ("message", VStr "down")]) []
         = (Done tt,
            [Resp (Status (num 500)); Resp (ContentType "application/json");
             Resp (Send (VObj [("message", VStr "down"); ("code", VUndefined);
                               ("details", VUndefined)]))]))
  /\ (forall fuel,
         sendError Sample.env (S fuel)
           (VObj [("type", VStr "entity.parse.failed"); ("body", VStr "{oops");
                  ("forOpenRosa", Sample.problem 400 (4002 # 10) "bad" VUndefined)]) []
         = (Done tt,
            [Resp (Status (num 400));
             Resp (Send (VObj [("OpenRosaResponse",
                                VObj [("nature", VStr "error");
                                      ("message", VStr "bad")])]))])).
Proof. repeat split. Qed.

(** C10 (as amended). A failure value handed to the [next] of the protocol
    adapter reaches the downstream continuation wrapped as an object whose
    only property is [forOpenRosa] when it is not null and bears
    [isProblem === true], and as it is otherwise.  The failure of a handler's
    result takes that way.  With the translator downstream, a classified
    error is rendered as the envelope; a value left unwrapped that is an
    unclassified fault (not null, owning no discriminant, without the marker
    of a body-decoding failure, its stack absent or a string) is rendered as
    the JSON body of status 500, not as an envelope. *)
Theorem openRosa_wraps_classified_only (env : Collaborators) :
  (forall x rawNext,
      nullish x = false -> get x "isProblem" = Done (VBool true) ->
      openRosa_next rawNext x = rawNext (VObj [("forOpenRosa", x)]))
  /\ (forall x rawNext,
        nullish x = true \/ is_true (prop x "isProblem") = false ->
        openRosa_next rawNext x = rawNext x)
  /\ (forall f request r x w w2,
        ProblemContract (Problem env) ->
        header "x-openrosa-version" (headers request) = Some "1.0" ->
        fromHTTP_isValid env (patchedDate request) = true ->
        f request (w ++ mandated env) = (Done r, w2) ->
        Resolves env r (Fails x) ->
        exists n, forall fuel, n <= fuel -> forall rawNext,
          openRosaEndpoint env fuel f request rawNext w = openRosa_next rawNext x w2
          \/ openRosaEndpoint env fuel f request rawNext w
             = swallow (openRosa_next rawNext x) w2)
  /\ (forall k x, classified k x = true ->
        forall fuel w,
          openRosa_next (sendError env (S fuel)) x w
          = (Done tt,
             w ++ [Resp (Status (prop x "httpCode"));
                   Resp (Send (prop (VObj (openRosaMessage env (prop x "code")
                                             (VObj [("nature", VStr "error");
                                                    ("message", prop x "message")])))
                                 "body"))]))
  /\ (forall x, unclassified x ->
        forall fuel w,
          openRosa_next (sendError env (S fuel)) x w
          = (Done tt,
             w ++ [Breakpoint;
                   Stderr (inspect env x);
                   Resp (Status (num 500));
                   Resp (ContentType "application/json");
                   Resp (Send (VObj
                     [("message", VStr (String.append "Completely unhandled exception: "
                                          (to_string env (prop x "message"))));
                      ("details", VObj (fault_details x))]))])).
Proof.
  split; [|split; [|split; [|split]]].
  - intros x rawNext Hn Hp. unfold openRosa_next, forOpenRosa. now rewrite Hn, Hp.
  - intros x rawNext H. unfold openRosa_next, forOpenRosa.
    destruct H as [H|H]; [now rewrite H|].
    destruct (nullish x) eqn:Hn; [reflexivity|]. cbn [negb andb].
    unfold prop in H. destruct (get x "isProblem"); try reflexivity. now rewrite H.
  - intros f request r x w w2 contract Hv Hd Hf Hr.
    destruct (finalizer_resolves env r _ Hr (or_introl contract)) as [n Hn].
    exists n. intros fuel Hfuel rawNext. rewrite openRosaEndpoint_unfold.
    apply is_version_1_0 in Hv. rewrite Hv, Hd. cbn [negb].
    unfold bind. rewrite Hf. unfold finalize.
    apply (Hn fuel Hfuel openRosa_success (openRosa_next rawNext) None None w2).
  - intros k x H fuel w. unfold openRosa_next.
    rewrite (forOpenRosa_classified k x H).
    destruct (classified_dispatch _ _ H) as [_ _ _ P _ _ _].
    apply sendError_wrapped; [reflexivity | reflexivity |].
    exact (get_nullish _ _ _ P).
  - intros x U fuel w. unfold openRosa_next, forOpenRosa.
    destruct U as [Ho [Hp Hrest]].
    assert (W : negb (nullish x)
                && match get x "isProblem" with Done p => is_true p | _ => false end
                = false).
    { rewrite (get_prop x "isProblem" (hasOwn_nullish _ _ _ Ho)), Hp.
      apply andb_false_r. }
    rewrite W. apply sendError_fault. repeat split; tauto.
Qed.

Lemma openRosa_wraps_classified_only_witness :
  unclassified (VObj [("message", VStr "boom")])
  /\ openRosa_next (sendError Sample.env 1) (VObj [("message", VStr "boom")]) []
     = (Done tt,
        [Breakpoint; Stderr "[inspect]"; Resp (Status (num 500));
         Resp (ContentType "application/json");
         Resp (Send (VObj [("message", VStr "Completely unhandled exception: boom");
                           ("details", VObj [])]))]).
Proof.
  assert (U : unclassified (VObj [("message", VStr "boom")])).
  { repeat split; try reflexivity. left. reflexivity. }
  split; [exact U |].
  exact (proj2 (proj2 (proj2 (proj2 (openRosa_wraps_classified_only Sample.env))))
           _ U 0 []).
Defined.

(** C10, as stated, fails on failure values that are left unwrapped without
    being unclassified faults: null reaches the translator as it is and the
    translator raises a TypeError, sending nothing; a value with the marker of
    a body-decoding failure is rendered with the status of the unparseable
    error, not 500. *)
Lemma openRosa_unwrapped_not_always_500 :
  (forall env fuel,
      openRosa_next (sendError env (S fuel)) VNull [] = (Thrown TypeError, []))
  /\ (forall env fuel,
        openRosa_next (sendError env (S fuel)) VUndefined [] = (Thrown TypeError, []))
  /\ (forall env fuel,
        openRosa_next (sendError env (S fuel))
          (VObj [("message", VStr "boom"); ("stack", num 5)]) []
        = (Thrown TypeError, []))
  /\ openRosa_next (sendError Sample.env 2)
       (VObj [("type", VStr "entity.parse.failed"); ("body", VStr "{oops")]) []
     = (Done tt,
        [Resp (Status (num 400)); Resp (ContentType "application/json");
         Resp (Send (VObj [("message", VStr "unparseable"); ("code", VNum (4001 # 10));
                           ("details", VObj [("format", VStr "json");
                                             ("rawLength", num 5)])]))]).
Proof. repeat split. Qed.

(** ** Further properties of the adapters *)

Lemma resolves_value_present (env : Collaborators) (r : value) (o : outcome) :
  Resolves env r o -> forall v, o = Succeeds v -> nullish v = false.
Proof.
  induction 1 as [ | | r x [x1 [P1 _]] | | | | ]; intros v' E;
    try discriminate E; eauto.
  injection E as <-. exact (get_nullish _ _ _ P1).
Qed.

(** When the handler wrapped by the JSON adapter returns a result that comes
    to a failure (a classified error, an absent result, a rejection), the
    adapter hands the failure to the downstream continuation and writes
    nothing on the response: no status 200 is sent. *)
Theorem endpoint_failure_goes_downstream (env : Collaborators) (f : handler)
    (request : Request) (r e : value) (w w1 : World) :
  ProblemContract (Problem env) ->
  f request w = (Done r, w1) ->
  Resolves env r (Fails e) ->
  exists n, forall fuel, n <= fuel ->
    endpoint env fuel f request (probe "next") w
    = (Done tt, w1 ++ [Continue "next" e]).
Proof.
  intros contract Hf Hr.
  destruct (finalizer_resolves env r _ Hr (or_introl contract)) as [n Hn].
  exists n. intros fuel Hfuel. unfold endpoint, finalize. unfold bind at 1. rewrite Hf.
  destruct (Hn fuel Hfuel (endpoint_success env) (probe "next")
              (Some TheRequest) (Some TheResponse) w1) as [E|E];
    rewrite E; reflexivity.
Qed.

Lemma endpoint_failure_goes_downstream_witness :
  ProblemContract (Problem Sample.env)
  /\ Resolves Sample.env (Sample.problem 404 (4041 # 10) "Not Found" VUndefined)
       (Fails (Sample.problem 404 (4041 # 10) "Not Found" VUndefined))
  /\ exists n, forall fuel, n <= fuel ->
       endpoint Sample.env fuel
         (fun _ => ret (Sample.problem 404 (4041 # 10) "Not Found" VUndefined))
         Sample.collect (probe "next") []
       = (Done tt,
          [Continue "next" (Sample.problem 404 (4041 # 10) "Not Found" VUndefined)]).
Proof.
  assert (R : Resolves Sample.env (Sample.problem 404 (4041 # 10) "Not Found" VUndefined)
                (Fails (Sample.problem 404 (4041 # 10) "Not Found" VUndefined))).
  { apply res_problem; try (eexists; split; reflexivity); reflexivity. }
  split; [exact sample_contract | split; [exact R |]].
  exact (endpoint_failure_goes_downstream Sample.env
           (fun _ => ret (Sample.problem 404 (4041 # 10) "Not Found" VUndefined))
           Sample.collect _ _ [] [] sample_contract eq_refl R).
Defined.

(** When a request passes the gate of the protocol adapter and the handler
    returns a result that resolves to the plain value [v], the adapter sets
    the status to [v.code] and sends [v.body] as it is. *)
Theorem openRosa_success_verbatim (env : Collaborators) (f : handler)
    (request : Request) (r v : value) (w w2 : World) :
  header "x-openrosa-version" (headers request) = Some "1.0" ->
  fromHTTP_isValid env (patchedDate request) = true ->
  f request (w ++ mandated env) = (Done r, w2) ->
  Resolves env r (Succeeds v) ->
  exists n, forall fuel, n <= fuel -> forall rawNext,
    openRosaEndpoint env fuel f request rawNext w
    = (Done tt, w2 ++ [Resp (Status (prop v "code")); Resp (Send (prop v "body"))]).
Proof.
  intros Hv Hd Hf Hr.
  pose proof (resolves_value_present env r _ Hr v eq_refl) as Hn.
  assert (S : openRosa_success v w2
              = (Done tt, w2 ++ [Resp (Status (prop v "code")); Resp (Send (prop v "body"))])).
  { unfold openRosa_success.
    rewrite (bind_get _ _ _ _ _ (get_prop v "code" Hn)), bind_respond.
    rewrite (bind_get _ _ _ _ _ (get_prop v "body" Hn)).
    unfold respond, tell. now rewrite <- app_assoc. }
  destruct (finalizer_resolves env r _ Hr (or_intror (ex_intro _ v eq_refl))) as [n Hres].
  exists n. intros fuel Hfuel rawNext. rewrite openRosaEndpoint_unfold.
  apply is_version_1_0 in Hv. rewrite Hv, Hd. cbn [negb].
  unfold bind at 1. rewrite Hf. unfold finalize.
  destruct (Hres fuel Hfuel openRosa_success (openRosa_next rawNext) None None w2)
    as [E|E]; rewrite E; cbn [continue]; [exact S | exact (swallow_done _ _ _ S)].
Qed.

Lemma openRosa_success_verbatim_witness :
  header "x-openrosa-version" (headers Sample.collect) = Some "1.0"
  /\ fromHTTP_isValid Sample.env (patchedDate Sample.collect) = true
  /\ exists n, forall fuel, n <= fuel -> forall rawNext,
       openRosaEndpoint Sample.env fuel
         (fun _ => ret (VObj [("code", num 201); ("body", VStr "<ok/>")]))
         Sample.collect rawNext []
       = (Done tt,
          mandated Sample.env ++ [Resp (Status (num 201)); Resp (Send (VStr "<ok/>"))]).
Proof.
  split; [reflexivity | split; [reflexivity |]].
  refine (openRosa_success_verbatim Sample.env
            (fun _ => ret (VObj [("code", num 201); ("body", VStr "<ok/>")]))
            Sample.collect _ (VObj [("code", num 201); ("body", VStr "<ok/>")])
            [] _ eq_refl eq_refl eq_refl _).
  eapply res_value; try (eexists; split; reflexivity); reflexivity.
Defined.

(** The protocol adapter creates its resolver without the request and the
    response.  When a request passes its gate and the handler returns a
    streamable result, the read of [on] on the missing request raises a
    TypeError: no listener is registered, [pipe] is not called and neither
    continuation is called. *)
Theorem openRosa_streamable_raises (env : Collaborators) (f : handler)
    (request : Request) (r : value) (p : func) (w w2 : World) :
  header "x-openrosa-version" (headers request) = Some "1.0" ->
  fromHTTP_isValid env (patchedDate request) = true ->
  f request (w ++ mandated env) = (Done r, w2) ->
  get r "pipe" = Done (VFun p) ->
  forall fuel rawNext,
    openRosaEndpoint env (S fuel) f request rawNext w = (Thrown TypeError, w2).
Proof.
  intros Hv Hd Hf Hp fuel rawNext. rewrite openRosaEndpoint_unfold.
  apply is_version_1_0 in Hv. rewrite Hv, Hd. cbn [negb].
  unfold bind at 1. rewrite Hf. unfold finalize.
  now apply finalizer_streams_detached with p.
Qed.

Lemma openRosa_streamable_raises_witness :
  get Sample.stream "pipe" = Done (VFun (Method "pipe" 2))
  /\ forall fuel rawNext,
       openRosaEndpoint Sample.env (S fuel) (fun _ => ret Sample.stream)
         Sample.collect rawNext []
       = (Thrown TypeError, mandated Sample.env).
Proof.
  split; [reflexivity |].
  exact (openRosa_streamable_raises Sample.env (fun _ => ret Sample.stream)
           Sample.collect Sample.stream (Method "pipe" 2) [] _
           eq_refl eq_refl eq_refl eq_refl).
Defined.

(** ** Termination *)

Lemma get_ends (r : value) (k : string) : get r k <> OutOfFuel.
Proof.
  destruct r; cbn [get]; try discriminate;
    try (destruct (String.eqb k "length"); discriminate).
  destruct (lookup k props); discriminate.
Qed.

Lemma ends_bind_lift {A B} (r : result A) (k : A -> M B) :
  r <> OutOfFuel -> (forall a, r = Done a -> ends (k a)) -> ends (bind (lift r) k).
Proof.
  intros Hr Hk w. unfold bind, lift. destruct r as [a|e|].
  - now apply Hk.
  - discriminate.
  - contradiction.
Qed.

Lemma hasOwn_ends (v : value) (k : string) : hasOwnProperty v k <> OutOfFuel.
Proof.
  destruct v; cbn [hasOwnProperty]; try discriminate.
  destruct (lookup k props); discriminate.
Qed.

Lemma ends_bind {A B} (m : M A) (k : A -> M B) :
  ends m -> (forall a, ends (k a)) -> ends (bind m k).
Proof.
  intros Hm Hk w. unfold bind. specialize (Hm w).
  destruct (m w) as [[a|e|] w']; cbn in *; [apply Hk | discriminate | congruence].
Qed.

Lemma ends_tell (e : event) : ends (tell e).
Proof. intros w. cbn. discriminate. Qed.

Lemma ends_ret {A} (a : A) : ends (ret a).
Proof. intros w. cbn. discriminate. Qed.

(** Runs a computation without recursion to its end. *)
Ltac run_to_end :=
  repeat first
    [ apply ends_tell
    | apply ends_ret
    | apply ends_bind_lift;
      [ first [ apply get_ends | apply hasOwn_ends | idtac ] | intros ? ? ]
    | apply ends_bind; [| intros ? ] ].

(** Under the contract of the Problem factory the translator always comes to
    an end, re-entering itself at most once: two units of fuel are enough
    for every value. *)
Theorem sendError_terminates (env : Collaborators) :
  ProblemContract (Problem env) ->
  forall fuel e, ends (sendError env (S (S fuel)) e).
Proof.
  intros contract fuel e. remember (S fuel) as fuel1 eqn:Efuel.
  cbn [sendError].
  apply ends_bind_lift; [apply hasOwn_ends|]. intros own Eown.
  destruct own.
  - unfold respond. run_to_end.
  - apply ends_bind_lift; [apply get_ends|]. intros ip Eip.
    destruct (is_true ip).
    + unfold respond. run_to_end.
    + apply ends_bind_lift; [apply get_ends|]. intros ty Ety.
      destruct (is_str "entity.parse.failed" ty).
      * apply ends_bind_lift; [apply get_ends|]. intros b Eb.
        apply ends_bind_lift; [apply get_ends|]. intros n En.
        destruct (unparseable_user _ contract
                    (VObj [("format", VStr "json"); ("rawLength", n)])) as [Hc _].
        destruct (classified_dispatch _ _ Hc) as [_ _ _ P O _ _].
        intros w. subst fuel1.
        rewrite (sendError_problem env _ fuel w O P). cbn. discriminate.
      * apply ends_bind_lift; [apply get_ends|]. intros st Est.
        apply ends_bind.
        { destruct (negb (nullish st)); [|apply ends_ret].
          apply ends_bind_lift; [|intros; apply ends_ret].
          unfold stack_lines. destruct st; discriminate. }
        intros details. unfold respond. run_to_end.
Qed.

Lemma sendError_terminates_witness :
  ProblemContract (Problem Sample.env)
  /\ ends (sendError Sample.env 2
             (VObj [("type", VStr "entity.parse.failed"); ("body", VStr "{oops")])).
Proof.
  split; [exact sample_contract |].
  exact (sendError_terminates Sample.env sample_contract 0
           (VObj [("type", VStr "entity.parse.failed"); ("body", VStr "{oops")])).
Defined.

(** ** Results that are not well formed *)

(** The resolver tests capabilities for presence, not for being callable.  A
    result whose [pipe] is present but is no function has its close listener
    registered before the call of [pipe] raises a TypeError; an
    explicit-promise marker without a callable [point], a [point] that
    returns nothing, and a [then] that is present but no function raise a
    TypeError as well.  In each case neither continuation has been called. *)
Theorem finalize_malformed_raises (env : Collaborators) (r : value) :
  (forall x, get r "pipe" = Done x -> nullish x = false -> is_function x = false ->
     forall fuel success failure target response w,
       finalize env (S fuel) success failure (Some target) response r w
       = (Thrown TypeError, w ++ [Listen target "close" (Release r)]))
  /\ (forall x, no_pipe r -> get r "isExplicitPromise" = Done (VBool true) ->
        get r "point" = Done x -> is_function x = false ->
        forall fuel success failure request response w,
          finalize env (S fuel) success failure request response r w
          = (Thrown TypeError, w))
  /\ (forall p, no_pipe r -> get r "isExplicitPromise" = Done (VBool true) ->
        get r "point" = Done (VFun (Thunk p)) -> nullish p = true ->
        forall fuel success failure request response w,
          finalize env (S fuel) success failure request response r w
          = (Thrown TypeError, w))
  /\ (forall x, no_pipe r -> not_explicit r ->
        get r "then" = Done x -> nullish x = false -> is_function x = false ->
        forall fuel success failure request response w,
          finalize env (S fuel) success failure request response r w
          = (Thrown TypeError, w)).
Proof.
  unfold finalize. repeat split.
  - intros x P N F fuel success failure target response w.
    cbn [finalizer]. rewrite (orElse_present _ _ _ _ P). reads.
    cbn [on]. rewrite bind_tell.
    destruct x; try discriminate F; try discriminate N; reflexivity.
  - intros x [x1 [P1 N1]] P2 P3 F fuel success failure request response w.
    cbn [finalizer]. rewrite (orElse_present _ _ _ _ P1). reads.
    destruct x; try discriminate F; reflexivity.
  - intros p [x1 [P1 N1]] P2 P3 N fuel success failure request response w.
    cbn [finalizer]. rewrite (orElse_present _ _ _ _ P1). reads.
    destruct p; try discriminate N; reflexivity.
  - intros x [x1 [P1 N1]] [x2 [P2 N2]] P3 N F fuel success failure request response w.
    cbn [finalizer]. rewrite (orElse_present _ _ _ _ P1). reads.
    destruct x; try discriminate F; try discriminate N; reflexivity.
Qed.

Lemma finalize_malformed_raises_witness :
  get (VObj [("pipe", VBool true)]) "pipe" = Done (VBool true)
  /\ finalize Sample.env 1 (probe "success") (probe "failure")
       (Some TheRequest) (Some TheResponse) (VObj [("pipe", VBool true)]) []
     = (Thrown TypeError,
        [Listen TheRequest "close" (Release (VObj [("pipe", VBool true)]))]).
Proof.
  split; [reflexivity |].
  exact (proj1 (finalize_malformed_raises Sample.env (VObj [("pipe", VBool true)]))
           (VBool true) eq_refl eq_refl eq_refl 0
           (probe "success") (probe "failure") TheRequest (Some TheResponse) []).
Defined.

(** What the resolver raises while a promise hands it a value is raised
    inside the promise's callback and rejects a promise nobody holds. *)
Lemma finalizer_callback_raises (env : Collaborators) (r v : value) (e : exn)
    fuel success failure request response w w' :
  no_pipe r -> not_explicit r ->
  get r "then" = Done (VFun (Then (Fulfilled v))) ->
  finalizer env fuel success failure request response v w = (Thrown e, w') ->
  finalizer env (S fuel) success failure request response r w
  = (Done tt, w' ++ [Unhandled e]).
Proof.
  intros [x1 [P1 N1]] [x2 [P2 N2]] P3 H.
  cbn [finalizer]. rewrite (orElse_present _ _ _ _ P1). reads.
  cbn [invoke_then]. unfold swallow. now rewrite H.
Qed.

(** When the handler of the protocol adapter returns a promise that is
    fulfilled with a streamable result, the TypeError of the missing request
    is raised inside the promise's callback: the adapter returns normally,
    no status and no body are written, the downstream continuation is not
    called, and the rejection is left unhandled. *)
Theorem openRosa_promised_stream_unhandled (env : Collaborators) (f : handler)
    (request : Request) (r v : value) (p : func) (w w2 : World) :
  header "x-openrosa-version" (headers request) = Some "1.0" ->
  fromHTTP_isValid env (patchedDate request) = true ->
  f request (w ++ mandated env) = (Done r, w2) ->
  no_pipe r -> not_explicit r ->
  get r "then" = Done (VFun (Then (Fulfilled v))) ->
  get v "pipe" = Done (VFun p) ->
  forall fuel rawNext,
    openRosaEndpoint env (S (S fuel)) f request rawNext w
    = (Done tt, w2 ++ [Unhandled TypeError]).
Proof.
  intros Hv Hd Hf H1 H2 H3 Hp fuel rawNext. rewrite openRosaEndpoint_unfold.
  apply is_version_1_0 in Hv. rewrite Hv, Hd. cbn [negb].
  unfold bind at 1. rewrite Hf. unfold finalize.
  apply finalizer_callback_raises with v; trivial.
  now apply finalizer_streams_detached with p.
Qed.

Lemma openRosa_promised_stream_unhandled_witness :
  get Sample.stream "pipe" = Done (VFun (Method "pipe" 2))
  /\ forall fuel rawNext,
       openRosaEndpoint Sample.env (S (S fuel))
         (fun _ => ret (Sample.promise (Fulfilled Sample.stream)))
         Sample.collect rawNext []
       = (Done tt, mandated Sample.env ++ [Unhandled TypeError]).
Proof.
  split; [reflexivity |].
  refine (openRosa_promised_stream_unhandled Sample.env
            (fun _ => ret (Sample.promise (Fulfilled Sample.stream)))
            Sample.collect _ Sample.stream (Method "pipe" 2) [] _
            eq_refl eq_refl eq_refl _ _ eq_refl eq_refl);
    eexists; split; reflexivity.
Defined.

(** ** The adapters with the translator downstream *)

(** With the translator as the downstream continuation, a request that the
    gate of the protocol adapter rejects is answered, whatever the handler,
    by the mandated headers, the status of the invalid-header error, of the
    4xx family, and the body of the envelope made for its message; no JSON
    content type is set. *)
Theorem openRosa_rejection_rendered (env : Collaborators) (request : Request) :
  ProblemContract (Problem env) ->
  let version := header "x-openrosa-version" (headers request) in
  let date := header "date" (headers request) in
  let rendered (p : value) (w : World) :=
    exists c m,
      get p "httpCode" = Done (VNum c)
      /\ (inject_Z 400 <= c)%Q /\ (c < inject_Z 500)%Q
      /\ get p "message" = Done (VStr m)
      /\ forall fuel fuel' f,
           openRosaEndpoint env fuel f request (sendError env (S fuel')) w
           = (Done tt,
              w ++ mandated env
                ++ [Resp (Status (VNum c));
                    Resp (Send (prop (VObj (openRosaMessage env (prop p "code")
                                              (VObj [("nature", VStr "error");
                                                     ("message", VStr m)])))
                                  "body"))]) in
  (version <> Some "1.0" ->
     forall w, rendered (invalidHeader env "X-OpenRosa-Version" version) w)
  /\ (version = Some "1.0" ->
      fromHTTP_isValid env (option_map Str.replace_gmt date) = false ->
      forall w, rendered (invalidHeader env "Date" date) w).
Proof.
  intros contract version date rendered.
  assert (R : forall field val w,
             (forall fuel f rawNext,
                 openRosaEndpoint env fuel f request rawNext w
                 = rawNext (forOpenRosa (invalidHeader env field val)) (w ++ mandated env)) ->
             rendered (invalidHeader env field val) w).
  { intros field val w H. unfold rendered.
    destruct (invalidHeader_user _ contract
                (VObj [("field", VStr field); ("value", of_header val)])) as [Hc _].
    fold (invalidHeader env field val) in Hc.
    destruct (classified_dispatch _ _ Hc) as [_ _ _ P _ [c [Hcode Hfam]] [m Hm]].
    destruct (family_user _ Hfam) as [Hlo Hhi].
    exists c, m. repeat split; trivial.
    intros fuel fuel' f. rewrite H, (forOpenRosa_classified _ _ Hc).
    rewrite (sendError_wrapped env (VObj [("forOpenRosa", invalidHeader env field val)])
               (invalidHeader env field val) fuel'
               (w ++ mandated env) eq_refl eq_refl (get_nullish _ _ _ P)).
    unfold prop at 1 4. rewrite Hcode, Hm. now rewrite <- app_assoc. }
  split.
  - intros Hv w. apply R. intros fuel f rawNext. rewrite openRosaEndpoint_unfold.
    fold version. destruct (is_str "1.0" (of_header version)) eqn:E.
    + apply is_version_1_0 in E. contradiction.
    + reflexivity.
  - intros Hv Hd w. apply R. intros fuel f rawNext. rewrite openRosaEndpoint_unfold.
    fold version date. apply is_version_1_0 in Hv. rewrite Hv.
    assert (Hp : patchedDate request = option_map Str.replace_gmt date).
    { unfold patchedDate. fold date. now destruct date. }
    rewrite Hp, Hd. reflexivity.
Qed.

Lemma openRosa_rejection_rendered_witness :
  ProblemContract (Problem Sample.env)
  /\ header "x-openrosa-version" (headers {| headers := [] |}) <> Some "1.0"
  /\ exists c m,
       get (invalidHeader Sample.env "X-OpenRosa-Version" None) "httpCode" = Done (VNum c)
       /\ (inject_Z 400 <= c)%Q /\ (c < inject_Z 500)%Q
       /\ get (invalidHeader Sample.env "X-OpenRosa-Version" None) "message" = Done (VStr m)
       /\ forall fuel fuel' f,
            openRosaEndpoint Sample.env fuel f {| headers := [] |}
              (sendError Sample.env (S fuel')) []
            = (Done tt,
               [] ++ mandated Sample.env
                  ++ [Resp (Status (VNum c));
                      Resp (Send (prop (VObj (openRosaMessage Sample.env
                                                (prop (invalidHeader Sample.env
                                                         "X-OpenRosa-Version" None) "code")
                                                (VObj [("nature", VStr "error");
                                                       ("message", VStr m)])))
                                    "body"))]).
Proof.
  split; [exact sample_contract | split; [discriminate |]].
  apply (proj1 (openRosa_rejection_rendered Sample.env {| headers := [] |}
                  sample_contract)).
  discriminate.
Defined.

(** With a downstream continuation that hands the failure to the translator
    together with the request and the response, a handler of the JSON adapter
    whose result comes to a classified error is answered by the status of
    that error and the JSON body of its message, code and details.  An
    absent result is answered so with the empty-response error, whose status
    is of the 5xx family. *)
Theorem endpoint_failure_rendered (env : Collaborators) (f : handler)
    (request : Request) (r x : value) (k : kind) (w w1 : World) :
  ProblemContract (Problem env) ->
  f request w = (Done r, w1) ->
  Resolves env r (Fails x) ->
  classified k x = true ->
  (exists n, forall fuel, n <= fuel -> forall fuel',
      endpoint env fuel f request (downstream env (S fuel')) w
      = (Done tt,
         w1 ++ [Resp (Status (prop x "httpCode"));
                Resp (ContentType "application/json");
                Resp (Send (VObj [("message", prop x "message");
                                  ("code", prop x "problemCode");
                                  ("details", prop x "problemDetails")]))]))
  /\ (nullish r = true ->
      x = internal_emptyResponse (Problem env)
      /\ exists c, prop x "httpCode" = VNum c
                   /\ (inject_Z 500 <= c)%Q /\ (c < inject_Z 600)%Q).
Proof.
  intros contract Hf Hr Hc.
  destruct (classified_dispatch _ _ Hc) as [_ _ _ P O _ _].
  split.
  - destruct (finalizer_resolves env r _ Hr (or_introl contract)) as [n Hn].
    exists n. intros fuel Hfuel fuel'.
    unfold endpoint, finalize. unfold bind at 1. rewrite Hf.
    assert (HS : downstream env (S fuel') x w1
                 = (Done tt,
                    w1 ++ [Resp (Status (prop x "httpCode"));
                           Resp (ContentType "application/json");
                           Resp (Send (VObj [("message", prop x "message");
                                             ("code", prop x "problemCode");
                                             ("details", prop x "problemDetails")]))])).
    { unfold downstream. exact (sendError_problem env x fuel' w1 O P). }
    destruct (Hn fuel Hfuel (endpoint_success env) (downstream env (S fuel'))
                (Some TheRequest) (Some TheResponse) w1) as [E|E];
      rewrite E; cbn [continue]; [exact HS | exact (swallow_done _ _ _ HS)].
  - intros Hn.
    assert (Hx : x = internal_emptyResponse (Problem env)).
    { inversion Hr; subst; trivial;
        match goal with
        | H : no_pipe ?y, N : nullish ?y = true |- _ =>
            destruct H as [z [Pz _]]; rewrite (get_nullish _ _ _ Pz) in N; discriminate N
        end. }
    split; [exact Hx|]. subst x.
    destruct (classified_dispatch _ _ (emptyResponse_internal _ contract))
      as [_ _ _ _ _ [c [Hcode Hfam]] _].
    exists c. unfold prop. rewrite Hcode.
    destruct (family_internal _ Hfam). auto.
Qed.

Lemma endpoint_failure_rendered_witness :
  ProblemContract (Problem Sample.env)
  /\ Resolves Sample.env VNull (Fails (internal_emptyResponse Sample.P))
  /\ classified InternalError (internal_emptyResponse Sample.P) = true
  /\ exists n, forall fuel, n <= fuel -> forall fuel',
       endpoint Sample.env fuel (fun _ => ret VNull) Sample.collect
         (downstream Sample.env (S fuel')) []
       = (Done tt,
          [Resp (Status (num 500));
           Resp (ContentType "application/json");
           Resp (Send (VObj [("message", VStr "no response");
                             ("code", VNum (5002 # 10));
                             ("details", VUndefined)]))]).
Proof.
  assert (R : Resolves Sample.env VNull (Fails (internal_emptyResponse Sample.P))).
  { apply (res_absent Sample.env). reflexivity. }
  split; [exact sample_contract | split; [exact R | split; [reflexivity |]]].
  exact (proj1 (endpoint_failure_rendered Sample.env (fun _ => ret VNull) Sample.collect
                  VNull _ InternalError [] [] sample_contract eq_refl R eq_refl)).
Defined.

(** ** The patch of the date *)

Lemma gmt_letter_no_terminator (c : ascii) :
  Ascii.eqb (Str.upper c) "G" || Ascii.eqb (Str.upper c) "M"
  || Ascii.eqb (Str.upper c) "T" = true ->
  Str.line_terminator c = false.
Proof.
  destruct c as [[] [] [] [] [] [] [] []]; cbv; intros H; try reflexivity; discriminate H.
Qed.

Lemma after_gmt_inv (s r : string) :
  Str.after_gmt s = Some r ->
  exists g m t,
    s = String g (String m (String t r))
    /\ Ascii.eqb (Str.upper g) "G" = true
    /\ Ascii.eqb (Str.upper m) "M" = true
    /\ Ascii.eqb (Str.upper t) "T" = true.
Proof.
  destruct s as [|g [|m [|t r']]]; cbn [Str.after_gmt]; try discriminate.
  destruct (Ascii.eqb (Str.upper g) "G") eqn:Eg; [|discriminate].
  destruct (Ascii.eqb (Str.upper m) "M") eqn:Em; [|discriminate].
  destruct (Ascii.eqb (Str.upper t) "T") eqn:Et; [|discriminate].
  cbn. intros H. injection H as ->. exists g, m, t. auto.
Qed.

(** The patch neither removes nor adds a line terminator. *)
Lemma replace_gmt_terminators (u : string) :
  Str.forallb (fun c => negb (Str.line_terminator c)) (Str.replace_gmt u)
  = Str.forallb (fun c => negb (Str.line_terminator c)) u.
Proof.
  induction u as [|c u IH]; [reflexivity|].
  cbn [Str.replace_gmt]. destruct (Str.gmt_match (String c u)) eqn:E.
  - unfold Str.gmt_match in E.
    destruct (Str.after_gmt (String c u)) as [r|] eqn:Ea; [|discriminate E].
    destruct (after_gmt_inv _ _ Ea) as [g [m [t [Hs [Hg [Hm Ht]]]]]].
    rewrite Hs. cbn [Str.forallb]. rewrite E.
    rewrite (gmt_letter_no_terminator g), (gmt_letter_no_terminator m),
      (gmt_letter_no_terminator t); [reflexivity | | |].
    + rewrite Ht. now rewrite !orb_true_r.
    + rewrite Hm. now rewrite orb_true_r.
    + now rewrite Hg.
  - cbn [Str.forallb]. now rewrite IH.
Qed.

Lemma gmt_match_head (s : string) :
  Str.gmt_match s = true ->
  exists g r, s = String g r /\ Ascii.eqb (Str.upper g) "G" = true.
Proof.
  unfold Str.gmt_match. destruct (Str.after_gmt s) as [r|] eqn:Ea; [|discriminate].
  intros _. destruct (after_gmt_inv _ _ Ea) as [g [m [t [Hs [Hg _]]]]].
  exists g, (String m (String t r)). auto.
Qed.

(** Whether the pattern matches at the head does not depend on the patch of
    what follows the first character. *)
Lemma gmt_match_patched_tail (c : ascii) (rest : string) :
  Str.gmt_match (String c (Str.replace_gmt rest)) = Str.gmt_match (String c rest).
Proof.
  destruct rest as [|a rest1]; [reflexivity|].
  cbn [Str.replace_gmt]. destruct (Str.gmt_match (String a rest1)) eqn:Ea.
  - destruct (gmt_match_head _ Ea) as [g [r [Hs Hg]]]. injection Hs as <- <-.
    apply Ascii.eqb_eq in Hg.
    unfold Str.gmt_match, Str.after_gmt. rewrite Hg.
    destruct rest1 as [|b rest2]; destruct (Ascii.eqb (Str.upper c) "G"); reflexivity.
  - destruct rest1 as [|b rest2]; [reflexivity|].
    cbn [Str.replace_gmt]. destruct (Str.gmt_match (String b rest2)) eqn:Eb.
    + destruct (gmt_match_head _ Eb) as [g [r [Hs Hg]]]. injection Hs as <- <-.
      apply Ascii.eqb_eq in Hg.
      unfold Str.gmt_match, Str.after_gmt. rewrite Hg.
      destruct (Ascii.eqb (Str.upper c) "G"), (Ascii.eqb (Str.upper a) "M"); reflexivity.
    + unfold Str.gmt_match, Str.after_gmt.
      destruct (Ascii.eqb (Str.upper c) "G" && Ascii.eqb (Str.upper a) "M"
                && Ascii.eqb (Str.upper b) "T"); [|reflexivity].
      apply replace_gmt_terminators.
Qed.

(** Patching a date is idempotent: a patched date is left as it is by a
    second patch, so a date that an upstream already normalised is not
    changed again.  A date without any match is not changed at all. *)
Theorem replace_gmt_idempotent :
  (forall s, Str.replace_gmt (Str.replace_gmt s) = Str.replace_gmt s)
  /\ (forall request,
        option_map Str.replace_gmt (patchedDate request) = patchedDate request)
  /\ (forall s,
        (forall p1 p2, s = String.append p1 p2 -> Str.gmt_match p2 = false) ->
        Str.replace_gmt s = s).
Proof.
  assert (I : forall s, Str.replace_gmt (Str.replace_gmt s) = Str.replace_gmt s).
  { induction s as [|c s IH]; [reflexivity|].
    cbn [Str.replace_gmt]. destruct (Str.gmt_match (String c s)) eqn:E.
    - reflexivity.
    - cbn [Str.replace_gmt]. rewrite gmt_match_patched_tail, E. now rewrite IH. }
  split; [exact I | split].
  - intros request. unfold patchedDate.
    destruct (header "date" (headers request)); cbn [option_map]; [|reflexivity].
    now rewrite I.
  - apply replace_gmt_no_match_at_all.
Qed.

(** ** The composition of Instance classes *)

Lemma lookup_assign (k k' : string) (v : value) (t : Model.object) :
  lookup k (Model.assign k' v t) = if String.eqb k k' then Some v else lookup k t.
Proof.
  induction t as [|[k2 v2] rest IH]; cbn [Model.assign lookup]; [reflexivity|].
  destruct (String.eqb k' k2) eqn:E2; cbn [lookup].
  - apply String.eqb_eq in E2. subst k2. now destruct (String.eqb k k').
  - rewrite IH. destruct (String.eqb k k') eqn:E1; [|reflexivity].
    apply String.eqb_eq in E1. subst k'. now rewrite E2.
Qed.

Lemma lookup_names (k : string) (source : Model.object) :
  existsb (String.eqb k) (Model.getOwnPropertyNames source)
  = match lookup k source with Some _ => true | None => false end.
Proof.
  induction source as [|[k' v'] rest IH]; [reflexivity|].
  cbn [Model.getOwnPropertyNames List.map fst existsb lookup].
  destruct (String.eqb k k'); [reflexivity | exact IH].
Qed.

Lemma assignAll_over (refuses : string -> bool) (source : Model.object) (k : string) :
  forall names target,
    lookup k
      (fold_left
         (fun target property =>
            match lookup property source with
            | Some x =>
                if is_function x
                then if refuses property then target else Model.assign property x target
                else target
            | None => target
            end) names target)
    = if existsb (String.eqb k) names
      then match Model.copied refuses source k with
           | Some x => Some x
           | None => lookup k target
           end
      else lookup k target.
Proof.
  induction names as [|n names IH]; intros target; [reflexivity|].
  cbn [fold_left existsb]. rewrite IH. cbv beta.
  destruct (String.eqb k n) eqn:E; cbn [orb].
  - apply String.eqb_eq in E. subst n. unfold Model.copied.
    destruct (lookup k source) as [x|]; [|now destruct (existsb (String.eqb k) names)].
    destruct (is_function x); cbn [andb];
      [|now destruct (existsb (String.eqb k) names)].
    destruct (refuses k); cbn [negb];
      [now destruct (existsb (String.eqb k) names)|].
    rewrite lookup_assign, String.eqb_refl.
    now destruct (existsb (String.eqb k) names).
  - assert (B : lookup k
                  match lookup n source with
                  | Some x =>
                      if is_function x
                      then if refuses n then target else Model.assign n x target
                      else target
                  | None => target
                  end = lookup k target).
    { destruct (lookup n source) as [x|]; [|reflexivity].
      destruct (is_function x); [|reflexivity].
      destruct (refuses n); [reflexivity|].
      now rewrite lookup_assign, E. }
    destruct (existsb (String.eqb k) names); [|exact B].
    destruct (Model.copied refuses source k); [reflexivity | exact B].
Qed.

(** [assignAll] copies the own properties of the source that are functions,
    and nothing else: after it the target holds under each name the function
    the source holds there, when it holds one and the target accepts the
    write, and what the target held before otherwise.  Properties of the
    source that are not functions are never copied and every other property
    of the target is kept. *)
Theorem assignAll_copies_functions (refuses : string -> bool)
    (target source : Model.object) (k : string) :
  lookup k (Model.assignAll refuses target source)
  = match lookup k source with
    | Some x => if is_function x && negb (refuses k) then Some x else lookup k target
    | None => lookup k target
    end.
Proof.
  unfold Model.assignAll. rewrite assignAll_over, lookup_names. unfold Model.copied.
  destruct (lookup k source) as [x|]; [|reflexivity].
  now destruct (is_function x && negb (refuses k)).
Qed.

Lemma assignAll_copied (refuses : string -> bool) (target source : Model.object)
    (k : string) :
  lookup k (Model.assignAll refuses target source)
  = match Model.copied refuses source k with
    | Some x => Some x
    | None => lookup k target
    end.
Proof.
  unfold Model.assignAll. rewrite assignAll_over, lookup_names. unfold Model.copied.
  destruct (lookup k source) as [x|]; [|reflexivity].
  now destruct (is_function x && negb (refuses k)).
Qed.

Lemma provided_app (refuses : string -> bool) (k : string) (l1 l2 : list Model.object) :
  Model.provided refuses k (l1 ++ l2)
  = match Model.provided refuses k l2 with
    | Some f => Some f
    | None => Model.provided refuses k l1
    end.
Proof.
  induction l1 as [|s l1 IH]; cbn [app Model.provided].
  - now destruct (Model.provided refuses k l2).
  - rewrite IH. now destruct (Model.provided refuses k l2).
Qed.

(** Decorating with a list of traits, one after the other. *)
Lemma decorate_lookup (k : string) :
  forall (bag : list Model.Trait) (p o : Model.object),
    let d := fold_left
               (fun d trait =>
                  (Model.assignAll Model.refuses_member (fst d) (Model.members trait),
                   Model.assignAll Model.refuses_static (snd d) (Model.class_own trait)))
               bag (p, o) in
    lookup k (fst d)
    = match Model.provided Model.refuses_member k (List.map Model.members bag) with
      | Some f => Some f
      | None => lookup k p
      end
    /\ lookup k (snd d)
       = match Model.provided Model.refuses_static k (List.map Model.class_own bag) with
         | Some f => Some f
         | None => lookup k o
         end.
Proof.
  induction bag as [|t bag IH]; intros p o; [split; reflexivity|].
  cbn [fold_left List.map fst snd].
  destruct (IH (Model.assignAll Model.refuses_member p (Model.members t))
               (Model.assignAll Model.refuses_static o (Model.class_own t))) as [H1 H2].
  cbn zeta in H1, H2. cbn zeta. rewrite H1, H2, !assignAll_copied.
  cbn [Model.provided]. unfold Model.copied.
  split.
  - destruct (Model.provided Model.refuses_member k (List.map Model.members bag));
      [reflexivity|].
    destruct (lookup k (Model.members t)) as [x|]; [|reflexivity].
    now destruct (is_function x && negb (Model.refuses_member k)).
  - destruct (Model.provided Model.refuses_static k (List.map Model.class_own bag));
      [reflexivity|].
    destruct (lookup k (Model.class_own t)) as [x|]; [|reflexivity].
    now destruct (is_function x && negb (Model.refuses_static k)).
Qed.

Lemma inject_prototype (C : Type) (traitDefs : list (C -> Model.Trait))
    (self : value) (container : C) (st : Model.Class) (k : string) :
  k <> "constructor" ->
  lookup k (Model.prototype (Model.inject traitDefs self container st))
  = match Model.provided Model.refuses_member k
            (List.map Model.members
               (Model.traits st
                  ++ List.map (fun traitDef => traitDef container) traitDefs)) with
    | Some f => Some f
    | None => lookup k (Model.prototype st)
    end.
Proof.
  intros Hk. unfold Model.inject. cbn [Model.prototype]. rewrite lookup_assign.
  destruct (String.eqb k "constructor") eqn:E.
  - apply String.eqb_eq in E. contradiction.
  - apply (decorate_lookup k _ (Model.prototype st) (Model.own st)).
Qed.

(** What a class provides for the function [Instance] is what its own
    properties other than [prototype] provide. *)
Lemma provided_class_own (k : string) (bag : list Model.Trait) :
  Model.provided Model.refuses_static k (List.map Model.class_own bag)
  = if String.eqb k "prototype" then None
    else Model.provided Model.refuses_static k (List.map Model.statics bag).
Proof.
  induction bag as [|t bag IH]; cbn [List.map Model.provided].
  - now destruct (String.eqb k "prototype").
  - rewrite IH. unfold Model.class_own. cbn [lookup].
    destruct (String.eqb k "prototype"); reflexivity.
Qed.

(** For classes that define nothing under [__proto__]: after the injection
    of the container, [Instance.prototype] holds under each name other than
    constructor the function of the last trait of the bag whose prototype
    holds one there, and what it held before when no trait does; its
    constructor is [Instance] again; the function [Instance] holds the
    static functions of the traits in the same way, and its [prototype] is
    not among what it is given; the bag is extended at each injection.  The
    definition given to [Instance.with(...traits)] comes last: after the
    first injection its methods are those of the class, whatever the traits
    define under the same names. *)
Theorem inject_last_definition_wins (C : Type) (traitDefs : list (C -> Model.Trait))
    (self : value) (container : C) (st : Model.Class) :
  Forall Model.plain
    (Model.traits st ++ List.map (fun traitDef => traitDef container) traitDefs) ->
  let bag := Model.traits st ++ List.map (fun traitDef => traitDef container) traitDefs in
  let st' := Model.inject traitDefs self container st in
  Model.traits st' = bag
  /\ lookup "constructor" (Model.prototype st') = Some self
  /\ (forall k, k <> "constructor" ->
        lookup k (Model.prototype st')
        = match Model.provided Model.refuses_member k (List.map Model.members bag) with
          | Some f => Some f
          | None => lookup k (Model.prototype st)
          end)
  /\ (forall k,
        lookup k (Model.own st')
        = match Model.provided Model.refuses_static k (List.map Model.class_own bag) with
          | Some f => Some f
          | None => lookup k (Model.own st)
          end)
  /\ Model.provided Model.refuses_static "prototype" (List.map Model.class_own bag) = None
  /\ (forall mixins def k x,
        Forall Model.plain (List.map (fun traitDef => traitDef container) (mixins ++ [def])) ->
        k <> "constructor" ->
        lookup k (Model.members (def container)) = Some x -> is_function x = true ->
        lookup k (Model.prototype
                    (snd (Model.Instance_with mixins def self) container
                       (fst (Model.Instance_with mixins def self))))
        = Some x).
Proof.
  intros _ bag st'. repeat split.
  - unfold st', Model.inject. cbn [Model.prototype]. now rewrite lookup_assign.
  - intros k Hk. apply inject_prototype. exact Hk.
  - intros k. unfold st', Model.inject. cbn [Model.own]. fold bag.
    apply (decorate_lookup k bag (Model.prototype st) (Model.own st)).
  - now rewrite provided_class_own.
  - intros mixins def k x Hplain Hk Hx Hf.
    assert (Hproto : k <> "__proto__").
    { intros ->. rewrite List.map_app in Hplain.
      apply Forall_app in Hplain. destruct Hplain as [_ Hdef].
      cbn [List.map] in Hdef. inversion Hdef as [|t l [Hm _] _]; subst.
      rewrite Hm in Hx. discriminate Hx. }
    unfold Model.Instance_with, Model.builder. cbn [fst snd].
    rewrite (inject_prototype _ _ _ _ _ _ Hk).
    cbn [Model.fresh Model.traits app]. rewrite !List.map_app.
    cbn [List.map]. rewrite provided_app. cbn [Model.provided].
    rewrite Hx, Hf. unfold Model.refuses_member.
    destruct (String.eqb k "__proto__") eqn:E; [|reflexivity].
    apply String.eqb_eq in E. contradiction.
Qed.

Lemma inject_last_definition_wins_witness :
  Forall Model.plain [Model.sample_trait; Model.sample_def]
  /\ lookup "greet"
       (Model.prototype
          (snd (Model.Instance_with [fun _ : unit => Model.sample_trait]
                  (fun _ : unit => Model.sample_def) (VFun (Method "Instance" 1))) tt
             (fst (Model.Instance_with [fun _ : unit => Model.sample_trait]
                     (fun _ : unit => Model.sample_def) (VFun (Method "Instance" 1))))))
     = Some (VFun (Thunk (VStr "def"))).
Proof.
  assert (H : Forall Model.plain [Model.sample_trait; Model.sample_def]).
  { repeat constructor. }
  split; [exact H|].
  refine (proj2 (proj2 (proj2 (proj2 (proj2
            (inject_last_definition_wins unit
               [fun _ : unit => Model.sample_trait; fun _ : unit => Model.sample_def]
               (VFun (Method "Instance" 1)) tt Model.fresh H)))))
            [fun _ : unit => Model.sample_trait] (fun _ : unit => Model.sample_def)
            "greet" (VFun (Thunk (VStr "def"))) H _ eq_refl eq_refl).
  discriminate.
Defined.

(** ** Rejections and primitive faults *)

(** A rejection is not classified again.  Whatever a promise, or the promise
    of an explicit promise, is rejected with (a classified error, a plain
    value, a streamable, another promise, even null, for which no
    empty-response error is substituted), that very value is handed to the
    failure continuation, once, and success is not called. *)
Theorem finalize_rejection_as_it_is (env : Collaborators) (r e : value) :
  (no_pipe r -> not_explicit r ->
   get r "then" = Done (VFun (Then (Rejected e))) ->
   forall fuel request response w,
     (forall success failure,
         finalize env (S fuel) success failure request response r w
         = swallow (failure e) w)
     /\ finalize env (S fuel) (probe "success") (probe "failure") request response r w
        = (Done tt, w ++ [Continue "failure" e]))
  /\ (forall p, no_pipe r ->
      get r "isExplicitPromise" = Done (VBool true) ->
      get r "point" = Done (VFun (Thunk p)) ->
      get p "then" = Done (VFun (Then (Rejected e))) ->
      forall fuel request response w,
        (forall success failure,
            finalize env (S fuel) success failure request response r w
            = swallow (failure e) w)
        /\ finalize env (S fuel) (probe "success") (probe "failure") request response r w
           = (Done tt, w ++ [Continue "failure" e])).
Proof.
  unfold finalize. split.
  - intros [x1 [P1 N1]] [x2 [P2 N2]] P3 fuel request response w.
    assert (G : forall success failure,
               finalizer env (S fuel) success failure request response r w
               = swallow (failure e) w).
    { intros success failure. cbn [finalizer].
      rewrite (orElse_present _ _ _ _ P1). reads. reflexivity. }
    split; [exact G | now rewrite G].
  - intros p [x1 [P1 N1]] P2 P3 P4 fuel request response w.
    assert (G : forall success failure,
               finalizer env (S fuel) success failure request response r w
               = swallow (failure e) w).
    { intros success failure. cbn [finalizer].
      rewrite (orElse_present _ _ _ _ P1). reads.
      cbn [invoke]. unfold bind at 1, ret at 1. reads. reflexivity. }
    split; [exact G | now rewrite G].
Qed.

Lemma finalize_rejection_as_it_is_witness :
  get (Sample.promise (Rejected VNull)) "then" = Done (VFun (Then (Rejected VNull)))
  /\ finalize Sample.env 1 (probe "success") (probe "failure")
       (Some TheRequest) (Some TheResponse) (Sample.promise (Rejected VNull)) []
     = (Done tt, [Continue "failure" VNull]).
Proof.
  split; [reflexivity |].
  refine (proj2 (proj1 (finalize_rejection_as_it_is Sample.env
                          (Sample.promise (Rejected VNull)) VNull)
                   _ _ eq_refl 0 (Some TheRequest) (Some TheResponse) []));
    eexists; split; reflexivity.
Defined.

(** A primitive (a string, a number or a boolean) given to the translator is
    an unclassified fault without a message and without a stack: the body
    sent with status 500 has the message "Completely unhandled exception:
    undefined" and empty details, so that the text of a string that was
    thrown reaches the client nowhere; it is only written, inspected, to
    stderr. *)
Theorem sendError_primitive_fault (env : Collaborators) (e : value) :
  (exists s, e = VStr s) \/ (exists q, e = VNum q) \/ (exists b, e = VBool b) ->
  forall fuel w,
    sendError env (S fuel) e w
    = (Done tt,
       w ++ [Breakpoint;
             Stderr (inspect env e);
             Resp (Status (num 500));
             Resp (ContentType "application/json");
             Resp (Send (VObj
               [("message", VStr "Completely unhandled exception: undefined");
                ("details", VObj [])]))]).
Proof.
  intros H fuel w.
  assert (U : unclassified e /\ prop e "message" = VUndefined /\ fault_details e = []).
  { destruct H as [[s ->]|[[q ->]|[b ->]]];
      (split; [repeat split; try reflexivity; left; reflexivity | split; reflexivity]). }
  destruct U as [U [Hm Hd]].
  rewrite (sendError_fault env e fuel w U), Hm, Hd. reflexivity.
Qed.

Lemma sendError_primitive_fault_witness :
  ((exists s, VStr "boom" = VStr s) \/ (exists q, VStr "boom" = VNum q)
   \/ (exists b, VStr "boom" = VBool b))
  /\ sendError Sample.env 1 (VStr "boom") []
     = (Done tt,
        [Breakpoint; Stderr "[inspect]"; Resp (Status (num 500));
         Resp (ContentType "application/json");
         Resp (Send (VObj
           [("message", VStr "Completely unhandled exception: undefined");
            ("details", VObj [])]))]).
Proof.
  split; [left; eexists; reflexivity |].
  exact (sendError_primitive_fault Sample.env (VStr "boom")
           (or_introl (ex_intro _ "boom" eq_refl)) 0 []).
Defined.
